(** * The cluster manager of the metadata service (server/cluster/manager.go)

    The manager is the process-wide registry of clusters.  Every operation
    looks a cluster up by name in the registry and delegates to it; only
    [CreateCluster] changes the registry.

    The manager is embedded as a program over the calls it makes to its
    collaborators (the id allocator, the storage, the [Cluster] objects and
    their coordinator).  These collaborators are interfaces or types whose
    code lives in other packages, so the manager is verified against every
    implementation of them; a second part gives one implementation that
    follows the design document, against which the properties that are
    decided inside the collaborators are settled.

    The constructor [NewManagerImpl], which reloads the stored clusters when
    the process starts, is outside this development. *)

From Stdlib Require Import ZArith Lia.
From stdpp Require Import base option list strings gmap fin_maps.

Local Open Scope string_scope.
Local Open Scope Z_scope.

(** ** Data *)

(** [uint32(x)]: conversion of an unsigned 64-bit value keeps the low 32 bits. *)
Definition uint32 (x : Z) : Z := x `mod` 2 ^ 32.

(** [clusterpb.ShardRole]. *)
Inductive clusterpb_ShardRole := ShardRole_LEADER | ShardRole_FOLLOWER.

#[global] Instance ShardRole_eq_dec : EqDecision clusterpb_ShardRole.
Proof. solve_decision. Defined.

(** [clusterpb.Cluster], the persisted cluster record. *)
Record ClusterPb := mkClusterPb {
  pb_Id : Z;
  pb_Name : string;
  pb_MinNodeCount : Z;
  pb_ReplicationFactor : Z;
  pb_ShardTotal : Z
}.

(** [clusterpb.Schema] and [clusterpb.Table], read through their getters. *)
Record SchemaPb := mkSchemaPb { schema_GetId : Z; schema_GetName : string }.
Record TablePb := mkTablePb { table_GetId : Z; table_GetName : string }.

(** [Table]: a table together with its schema ([t.schema], [t.meta]). *)
Record Table := mkTable { schema : SchemaPb; meta : TablePb }.

(** [ShardTablesWithRole], an entry of the view [Cluster.GetTables] returns. *)
Record ShardTablesWithRole := mkShardTablesWithRole {
  shardRole : clusterpb_ShardRole;
  tables : list Table;
  version : Z
}.

Record TableInfo := mkTableInfo {
  ID : Z;
  Name : string;
  SchemaID : Z;
  SchemaName : string
}.

Record ShardTables := mkShardTables {
  ShardRole : clusterpb_ShardRole;
  Tables : list TableInfo;
  Version : Z
}.

(** [*Cluster]: a reference to a cluster object; the object itself is part of
    the state of the collaborators. *)
Record Cluster := ClusterRef { cluster_addr : nat }.

(** ** Errors *)

(** The kinds of error of the design (section 7). *)
Inductive ErrKind :=
  | ValidationError
  | AlreadyExistsError
  | NotFoundError
  | AllocationError
  | StorageError.

(** An argument of a format string.  [ArgPb] is a cluster record printed
    with [%v]; it is [None] for a nil record, which is what the storage
    returns next to an error. *)
Inductive FmtArg :=
  | ArgS (s : string)
  | ArgU (n : Z)
  | ArgUs (l : list Z)
  | ArgPb (pb : option ClusterPb).

(** Go error values: a coded error with an optional cause, or an error
    wrapped with a message ([errors.Wrap], [errors.Wrapf]). *)
Inductive error :=
  | CodeError (kind : ErrKind) (desc : string) (cause : option (string * list FmtArg))
  | Wrapf (err : error) (format : string) (args : list FmtArg).

Definition Wrap (err : error) (message : string) : error := Wrapf err message [].

Definition WithCausef (e : error) (format : string) (args : list FmtArg) : error :=
  match e with
  | CodeError k d _ => CodeError k d (Some (format, args))
  | Wrapf _ _ _ => e
  end.

(** Modelled from the spec: the error values [ErrCreateCluster],
    [ErrClusterAlreadyExists] and [ErrClusterNotFound] are declared outside
    manager.go; section 7 of the design gives their kinds: a validation
    error for a node count below one, an already-exists error for a
    duplicate cluster name, a not-found error for an unknown cluster. *)
Definition ErrCreateCluster : error := CodeError ValidationError "create cluster" None.
Definition ErrClusterAlreadyExists : error := CodeError AlreadyExistsError "cluster already exists" None.
Definition ErrClusterNotFound : error := CodeError NotFoundError "cluster not found" None.

(** [errors.Cause]: the error at the root of a chain of wrappings. *)
Fixpoint Cause (e : error) : error :=
  match e with
  | CodeError _ _ _ => e
  | Wrapf err _ _ => Cause err
  end.

(** The kind a caller matches on: the kind of the root cause. *)
Definition errKind (e : error) : ErrKind :=
  match Cause e with
  | CodeError k _ _ => k
  | Wrapf _ _ _ => StorageError
  end.

(** ** Calls to the collaborators *)

Inductive Call :=
  | alloc_Alloc
  | storage_CreateCluster (clusterPb : ClusterPb)
  | NewCluster (clusterPb : ClusterPb)
  | cluster_init (cluster : Cluster)
  | cluster_Load (cluster : Cluster)
  | cluster_GetOrCreateSchema (cluster : Cluster) (schemaName : string)
  | cluster_GetOrCreateTable (cluster : Cluster) (nodeName schemaName tableName : string)
  | cluster_GetTables (cluster : Cluster) (shardIDs : list Z) (nodeName : string)
  | cluster_DropTable (cluster : Cluster) (schemaName tableName : string) (tableID : Z)
  | cluster_RegisterNode (cluster : Cluster) (nodeName : string) (lease : Z)
  | coordinator_scatterShard (cluster : Cluster)
  | cluster_GetShardIDs (cluster : Cluster) (nodeName : string).

(** What each call returns.  A Go [error] result is [None] for [nil]; a
    result paired with an error is a sum. *)
Definition Resp (c : Call) : Type :=
  match c with
  | alloc_Alloc => error + Z
  | storage_CreateCluster _ => error + ClusterPb
  | NewCluster _ => Cluster
  | cluster_init _ => option error
  | cluster_Load _ => option error
  | cluster_GetOrCreateSchema _ _ => error + SchemaPb
  | cluster_GetOrCreateTable _ _ _ _ => error + Table
  | cluster_GetTables _ _ _ => error + gmap Z ShardTablesWithRole
  | cluster_DropTable _ _ _ _ => option error
  | cluster_RegisterNode _ _ _ => option error
  | coordinator_scatterShard _ => option error
  | cluster_GetShardIDs _ _ => error + list Z
  end.

(** Programs: return a value, write a line to the error log, or call a
    collaborator and continue with its answer. *)
Inductive Prog (A : Type) : Type :=
  | Ret (a : A)
  | LogError (msg : string) (k : Prog A)
  | Do (c : Call) (k : Resp c → Prog A).
Arguments Ret {A} a.
Arguments LogError {A} msg k.
Arguments Do {A} c k.

Fixpoint bind {A B} (p : Prog A) (f : A → Prog B) : Prog B :=
  match p with
  | Ret a => f a
  | LogError msg k => LogError msg (bind k f)
  | Do c k => Do c (λ r, bind (k r) f)
  end.

Definition call (c : Call) : Prog (Resp c) := Do c Ret.

#[global] Instance Prog_ret : MRet Prog := @Ret.
#[global] Instance Prog_bind : MBind Prog := λ A B f p, bind p f.

(** What an observer sees of a run: the log lines and the calls, in order. *)
Inductive Event :=
  | EvLog (msg : string)
  | EvCall (c : Call).

(** An implementation of the collaborators over a state [W]: the allocator's
    counter, the durable store and the cluster objects all live in [W]. *)
Class Backend (W : Type) := handle : ∀ c : Call, W → Resp c * W.

(** The outcome of a run: the value, the final state, the events. *)
Fixpoint run {W} `{!Backend W} {A} (p : Prog A) (w : W) : A * W * list Event :=
  match p with
  | Ret a => (a, w, [])
  | LogError msg k =>
      let r := run k w in (r.1.1, r.1.2, EvLog msg :: r.2)
  | Do c k =>
      let a := handle c w in
      let r := run (k a.1) a.2 in (r.1.1, r.1.2, EvCall c :: r.2)
  end.

(** The collaborator calls of a run, the log lines left out. *)
Definition calls (t : list Event) : list Call :=
  omap (λ e, match e with EvCall c => Some c | EvLog _ => None end) t.

(** ** The manager *)

(** [managerImpl]: the registry of loaded clusters.  The storage, the
    allocator, the heartbeat streams and the root path are fixed at
    construction and are reached through the collaborators' state; the
    lock orders concurrent callers and has no sequential content. *)
Record managerImpl := mkManager { clusters : gmap string Cluster }.

Definition getCluster (m : managerImpl) (clusterName : string) : error + Cluster :=
  match clusters m !! clusterName with
  | Some cluster => inr cluster
  | None =>
      inl (WithCausef ErrClusterNotFound
             "clusters manager getCluster, clusterName:%s" [ArgS clusterName])
  end.

Definition allocClusterID : Prog (error + Z) :=
  r ← call alloc_Alloc;
  match r with
  | inl err => Ret (inl (Wrapf err "alloc cluster id failed" []))
  | inr ID => Ret (inr (uint32 ID))
  end.

Definition CreateCluster (m : managerImpl) (clusterName : string)
    (initialNodeCount replicationFactor shardTotal : Z)
    : Prog ((error + Cluster) * managerImpl) :=
  if initialNodeCount <? 1 then
    LogError "cluster's nodeCount must > 0"
      (Ret (inl (WithCausef ErrCreateCluster "nodeCount must > 0" []), m))
  else
    match clusters m !! clusterName with
    | Some _ =>
        LogError "cluster already exists" (Ret (inl ErrClusterAlreadyExists, m))
    | None =>
        r ← allocClusterID;
        match r with
        | inl err =>
            LogError "fail to alloc cluster id"
              (Ret (inl (Wrapf err "clusters manager CreateCluster, clusterName:%s"
                           [ArgS clusterName]), m))
        | inr clusterID =>
            let clusterPb := {|
              pb_Id := clusterID;
              pb_Name := clusterName;
              pb_MinNodeCount := initialNodeCount;
              pb_ReplicationFactor := replicationFactor;
              pb_ShardTotal := shardTotal |} in
            r ← call (storage_CreateCluster clusterPb);
            match r with
            | inl err =>
                LogError "fail to create cluster"
                  (Ret (inl (Wrapf err "clusters manager CreateCluster, clusters:%v"
                               [ArgPb None]), m))
            | inr clusterPb =>
                cluster ← call (NewCluster clusterPb);
                err ← call (cluster_init cluster);
                match err with
                | Some err =>
                    LogError "fail to init cluster"
                      (Ret (inl (Wrapf err "clusters manager CreateCluster, clusterName:%s"
                                   [ArgS clusterName]), m))
                | None =>
                    err ← call (cluster_Load cluster);
                    match err with
                    | Some err =>
                        LogError "fail to load cluster"
                          (Ret (inl (Wrapf err
                                       "clusters manager CreateCluster, clusterName:%s"
                                       [ArgS clusterName]), m))
                    | None =>
                        Ret (inr cluster,
                             mkManager (<[clusterName := cluster]> (clusters m)))
                    end
                end
            end
        end
    end.

Definition AllocSchemaID (m : managerImpl) (clusterName schemaName : string)
    : Prog (error + Z) :=
  match getCluster m clusterName with
  | inl err =>
      LogError "cluster not found" (Ret (inl (Wrap err "clusters manager AllocSchemaID")))
  | inr cluster =>
      r ← call (cluster_GetOrCreateSchema cluster schemaName);
      match r with
      | inl err =>
          LogError "fail to create schema"
            (Ret (inl (Wrapf err
                         "clusters manager AllocSchemaID, clusterName:%s, schemaName:%s"
                         [ArgS clusterName; ArgS schemaName])))
      | inr schema => Ret (inr (schema_GetId schema))
      end
  end.

Definition AllocTableID (m : managerImpl) (clusterName schemaName tableName nodeName : string)
    : Prog (error + Table) :=
  match getCluster m clusterName with
  | inl err =>
      LogError "cluster not found" (Ret (inl (Wrap err "clusters manager AllocTableID")))
  | inr cluster =>
      r ← call (cluster_GetOrCreateTable cluster nodeName schemaName tableName);
      match r with
      | inl err =>
          LogError "fail to create table"
            (Ret (inl (Wrapf err
                         "clusters manager AllocTableID, clusterName:%s, schemaName:%s, tableName:%s, nodeName:%s"
                         [ArgS clusterName; ArgS schemaName; ArgS tableName; ArgS nodeName])))
      | inr table => Ret (inr table)
      end
  end.

(** The body of the loops of [GetTables].  The inner loop appends one
    [TableInfo] per table; the outer loop ranges over the entries of the
    view and stores one [ShardTables] per entry. *)
Definition tableInfos_loop (ts : list Table) : list TableInfo :=
  foldl (λ tableInfos t,
           (tableInfos ++ [ {| ID := table_GetId (meta t);
                               Name := table_GetName (meta t);
                               SchemaID := schema_GetId (schema t);
                               SchemaName := schema_GetName (schema t) |} ])%list)
        [] ts.

Definition GetTables_loop (entries : list (Z * ShardTablesWithRole))
    (ret : gmap Z ShardTables) : gmap Z ShardTables :=
  foldl (λ ret e,
           let shardID := e.1 in
           let shardTables := e.2 in
           let tableInfos := tableInfos_loop (tables shardTables) in
           <[shardID := {| ShardRole := shardRole shardTables;
                           Tables := tableInfos;
                           Version := version shardTables |}]> ret)
        ret entries.

Definition GetTables (m : managerImpl) (clusterName nodeName : string) (shardIDs : list Z)
    : Prog (error + gmap Z ShardTables) :=
  match getCluster m clusterName with
  | inl err =>
      LogError "cluster not found" (Ret (inl (Wrap err "clusters manager GetTables")))
  | inr cluster =>
      r ← call (cluster_GetTables cluster shardIDs nodeName);
      match r with
      | inl err =>
          Ret (inl (Wrapf err
                      "clusters manager GetTables, clusterName:%s, nodeName:%s, shardIDs:%v"
                      [ArgS clusterName; ArgS nodeName; ArgUs shardIDs]))
      | inr shardTablesWithRole =>
          Ret (inr (GetTables_loop (map_to_list shardTablesWithRole) ∅))
      end
  end.

Definition DropTable (m : managerImpl) (clusterName schemaName tableName : string)
    (tableID : Z) : Prog (option error) :=
  match getCluster m clusterName with
  | inl err =>
      LogError "cluster not found" (Ret (Some (Wrap err "clusters manager DropTable")))
  | inr cluster =>
      err ← call (cluster_DropTable cluster schemaName tableName tableID);
      match err with
      | Some err =>
          Ret (Some (Wrapf err
                       "clusters manager DropTable, clusterName:%s, schemaName:%s, tableName:%s, tableID:%d"
                       [ArgS clusterName; ArgS schemaName; ArgS tableName; ArgU tableID]))
      | None => Ret None
      end
  end.

Definition RegisterNode (m : managerImpl) (clusterName nodeName : string) (lease : Z)
    : Prog (option error) :=
  match getCluster m clusterName with
  | inl err =>
      LogError "cluster not found" (Ret (Some (Wrap err "clusters manager RegisterNode")))
  | inr cluster =>
      err ← call (cluster_RegisterNode cluster nodeName lease);
      match err with
      | Some err => Ret (Some (Wrap err "clusters manager RegisterNode"))
      | None =>
          err ← call (coordinator_scatterShard cluster);
          match err with
          | Some err => Ret (Some (Wrap err "RegisterNode"))
          | None => Ret None
          end
      end
  end.

Definition GetShards (m : managerImpl) (clusterName nodeName : string)
    : Prog (error + list Z) :=
  match getCluster m clusterName with
  | inl err =>
      LogError "cluster not found" (Ret (inl (Wrap err "clusters manager GetShards")))
  | inr cluster =>
      r ← call (cluster_GetShardIDs cluster nodeName);
      match r with
      | inl err => Ret (inl (Wrap err "clusters manager GetShards"))
      | inr shardIDs => Ret (inr shardIDs)
      end
  end.

(** *** The constructor

    [NewManagerImpl] lists the stored clusters and loads each of them.  The
    listing is a call of the storage and [cluster.Name()] reads the cluster
    object; both are collaborators next to those of [Call]. *)
Class Startup (W : Type) := {
  storage_ListClusters : W → (error + list ClusterPb) * W;
  cluster_Name : Cluster → W → string
}.



(** The prefixes of the three id name spaces. *)
Definition AllocClusterIDPrefix : string := "ClusterID".
Definition AllocSchemaIDPrefix : string := "SchemaID".
Definition AllocTableIDPrefix : string := "TableID".

(** ** The collaborators, after the design document

    The allocator, the storage, the cluster objects and the coordinator are
    implemented in other packages.  This module gives the implementation the
    design document describes (sections 3, 4.2, 4.3, 4.4 and 6). *)
Module Meta.

(** Modelled from the spec: a shard (section 3) has node assignments, each
    with a role, a version and a set of table ids; the shard type is declared
    outside manager.go. *)
Record Shard := mkShard {
  shard_assigned : list (string * clusterpb_ShardRole);
  shard_version : Z;
  shard_tableIds : list Z
}.

(** Modelled from the spec: the topology a [Cluster] owns (section 4.3): the
    schemas by name, the tables by schema and table name with their owner
    node, the shards by id and the leases of the registered nodes.  The
    in-memory maps are a cache of the stored ones, written through on every
    mutation, so one copy stands for both. *)
Record Topology := mkTopology {
  t_schemas : gmap string SchemaPb;
  t_tables : gmap (string * string) (Table * string);
  t_shards : gmap Z Shard;
  t_nodes : gmap string Z
}.

(** Modelled from the spec: the topology of a cluster nothing was stored for. *)
Definition empty_topology : Topology := mkTopology ∅ ∅ ∅ ∅.

(** Modelled from the spec: the state behind the collaborators: the outcome
    of the coming accesses to the durable store ([true] for an access that
    fails), the allocator's counters by name space (section 4.2), the stored
    cluster records (section 6), the topology of every cluster by cluster
    id, and the cluster objects constructed so far. *)
Record World := mkWorld {
  faults : list bool;
  counters : gmap string Z;
  cluster_records : list ClusterPb;
  topologies : gmap Z Topology;
  objects : list ClusterPb
}.

(** Modelled from the spec: an empty store, no counter, no cluster object. *)
Definition empty_world : World := mkWorld [] ∅ [] ∅ [].

(** Updates of one field of the state and of a topology. *)
Definition set_faults (fs : list bool) (w : World) : World :=
  mkWorld fs (counters w) (cluster_records w) (topologies w) (objects w).
Definition set_counters (cs : gmap string Z) (w : World) : World :=
  mkWorld (faults w) cs (cluster_records w) (topologies w) (objects w).
Definition set_cluster_records (rs : list ClusterPb) (w : World) : World :=
  mkWorld (faults w) (counters w) rs (topologies w) (objects w).
Definition set_topologies (ts : gmap Z Topology) (w : World) : World :=
  mkWorld (faults w) (counters w) (cluster_records w) ts (objects w).
Definition set_objects (os : list ClusterPb) (w : World) : World :=
  mkWorld (faults w) (counters w) (cluster_records w) (topologies w) os.

Definition set_schemas (x : gmap string SchemaPb) (t : Topology) : Topology :=
  mkTopology x (t_tables t) (t_shards t) (t_nodes t).
Definition set_tables (x : gmap (string * string) (Table * string)) (t : Topology) : Topology :=
  mkTopology (t_schemas t) x (t_shards t) (t_nodes t).
Definition set_shards (x : gmap Z Shard) (t : Topology) : Topology :=
  mkTopology (t_schemas t) (t_tables t) x (t_nodes t).
Definition set_nodes (x : gmap string Z) (t : Topology) : Topology :=
  mkTopology (t_schemas t) (t_tables t) (t_shards t) x.

(** Modelled from the spec: the stored topology of a cluster, by cluster id. *)
Definition topology_of (w : World) (clusterID : Z) : Topology :=
  default empty_topology (topologies w !! clusterID).

Definition put_topology (clusterID : Z) (t : Topology) (w : World) : World :=
  set_topologies (<[clusterID := t]> (topologies w)) w.

(** Modelled from the spec: the storage error and the not-found errors of
    the taxonomy of section 7, raised below the manager. *)
Definition ErrStorage : error := CodeError StorageError "storage" None.
Definition ErrNotFound (what : string) : error := CodeError NotFoundError what None.

(** Modelled from the spec: an access to the durable store, which may fail
    (section 5: every operation may block or fail on the store's I/O).  The
    answer is whether the access went through. *)
Definition store_access (w : World) : bool * World :=
  match faults w with
  | [] => (true, w)
  | f :: fs => (negb f, set_faults fs w)
  end.

Module Allocator.

(** Modelled from the spec: [Alloc] of the id allocator (section 4.2): the
    counter of the name space is incremented in the store and the new value
    returned; a failure to persist aborts the allocation with a storage
    error. *)
Definition Alloc (prefix : string) (w : World) : (error + Z) * World :=
  let a := store_access w in
  if a.1 then
    let id := default 0 (counters a.2 !! prefix) + 1 in
    (inr id, set_counters (<[prefix := id]> (counters a.2)) a.2)
  else (inl ErrStorage, a.2).

End Allocator.

Module Storage.

(** Modelled from the spec: [CreateCluster] of the storage (section 6): it
    fails if a record with the same id or name already exists, and returns
    the persisted record otherwise. *)
Definition CreateCluster (pb : ClusterPb) (w : World) : (error + ClusterPb) * World :=
  let a := store_access w in
  if a.1 then
    if existsb (λ r, bool_decide (pb_Id r = pb_Id pb ∨ pb_Name r = pb_Name pb))
               (cluster_records a.2)
    then (inl ErrStorage, a.2)
    else (inr pb, set_cluster_records (cluster_records a.2 ++ [pb])%list a.2)
  else (inl ErrStorage, a.2).

End Storage.

(** Modelled from the spec: the record a cluster object was constructed
    from; [None] for a reference to no object. *)
Definition object_of (w : World) (c : Cluster) : option ClusterPb :=
  objects w !! cluster_addr c.

(** Modelled from the spec: the node that holds a shard as leader, and
    whether a node holds a shard (section 3: one leader, the rest followers). *)
Definition leader_of (s : Shard) : option string :=
  fst <$> head (filter (λ e, e.2 = ShardRole_LEADER) (shard_assigned s)).

Definition assigned_to (nodeName : string) (s : Shard) : bool :=
  bool_decide (nodeName ∈ (shard_assigned s).*1).

Module ClusterImpl.

(** Modelled from the spec: [NewCluster] constructs the object of a cluster
    record; the reference is the object's position. *)
Definition NewCluster (pb : ClusterPb) (w : World) : Cluster * World :=
  (ClusterRef (length (objects w)), set_objects (objects w ++ [pb])%list w).

(** Modelled from the spec: [shardTotal] shards, numbered from zero, with no
    assigned node, version zero and no table (section 4.3, [init]). *)
Definition fresh_shards (shardTotal : Z) : gmap Z Shard :=
  list_to_map (map (λ i : nat, (Z.of_nat i, mkShard [] 0 [])) (seq 0 (Z.to_nat shardTotal))).

(** Modelled from the spec: [init] (section 4.3) instantiates [shardTotal]
    shards with no assigned node and version zero, and persists. *)
Definition init (c : Cluster) (w : World) : option error * World :=
  match object_of w c with
  | None => (Some (ErrNotFound "cluster"), w)
  | Some pb =>
      let a := store_access w in
      if a.1 then
        (None, put_topology (pb_Id pb)
                 (set_shards (fresh_shards (pb_ShardTotal pb)) (topology_of a.2 (pb_Id pb)))
                 a.2)
      else (Some ErrStorage, a.2)
  end.

(** Modelled from the spec: [Load] (section 4.3) reads the maps of the
    cluster back from the store. *)
Definition Load (c : Cluster) (w : World) : option error * World :=
  match object_of w c with
  | None => (Some (ErrNotFound "cluster"), w)
  | Some pb =>
      let a := store_access w in
      if a.1 then (None, a.2) else (Some ErrStorage, a.2)
  end.

(** Modelled from the spec: [GetOrCreateSchema] (section 4.3) returns the
    schema if present; otherwise it allocates an id, persists and inserts. *)
Definition GetOrCreateSchema (c : Cluster) (schemaName : string) (w : World)
    : (error + SchemaPb) * World :=
  match object_of w c with
  | None => (inl (ErrNotFound "cluster"), w)
  | Some pb =>
      let top := topology_of w (pb_Id pb) in
      match t_schemas top !! schemaName with
      | Some s => (inr s, w)
      | None =>
          let r := Allocator.Alloc AllocSchemaIDPrefix w in
          match r.1 with
          | inl err => (inl err, r.2)
          | inr id =>
              let a := store_access r.2 in
              if a.1 then
                let s := mkSchemaPb id schemaName in
                (inr s, put_topology (pb_Id pb)
                          (set_schemas (<[schemaName := s]> (t_schemas top)) top) a.2)
              else (inl ErrStorage, a.2)
          end
      end
  end.

(** Modelled from the spec: the shard that receives a new table.  The design
    asks that a table is listed by one shard and does not say which: the
    first shard led by the node is taken, or the first shard of the cluster
    when the node leads none. *)
Definition shard_for (top : Topology) (nodeName : string) : option Z :=
  let l := map_to_list (t_shards top) in
  match head (filter (λ e, leader_of e.2 = Some nodeName) l) with
  | Some e => Some e.1
  | None => fst <$> head l
  end.

(** Modelled from the spec: a change of the table set of a shard increments
    its version (section 3). *)
Definition add_table_to_shard (tableID : Z) (s : Shard) : Shard :=
  mkShard (shard_assigned s) (shard_version s + 1) (shard_tableIds s ++ [tableID])%list.

(** Modelled from the spec: [GetOrCreateTable] (section 4.3) returns the
    table if present; otherwise it allocates an id, persists and inserts, the
    table being associated with the node.  An unknown schema is a not-found
    error (section 7). *)
Definition GetOrCreateTable (c : Cluster) (nodeName schemaName tableName : string)
    (w : World) : (error + Table) * World :=
  match object_of w c with
  | None => (inl (ErrNotFound "cluster"), w)
  | Some pb =>
      let top := topology_of w (pb_Id pb) in
      match t_schemas top !! schemaName with
      | None => (inl (ErrNotFound "schema"), w)
      | Some sch =>
          match t_tables top !! (schemaName, tableName) with
          | Some e => (inr e.1, w)
          | None =>
              let r := Allocator.Alloc AllocTableIDPrefix w in
              match r.1 with
              | inl err => (inl err, r.2)
              | inr id =>
                  let a := store_access r.2 in
                  if a.1 then
                    let t := mkTable sch (mkTablePb id tableName) in
                    let shards' :=
                      match shard_for top nodeName with
                      | Some sid => alter (add_table_to_shard id) sid (t_shards top)
                      | None => t_shards top
                      end in
                    (inr t, put_topology (pb_Id pb)
                              (set_shards shards'
                                 (set_tables (<[(schemaName, tableName) := (t, nodeName)]>
                                                (t_tables top)) top)) a.2)
                  else (inl ErrStorage, a.2)
              end
          end
      end
  end.

(** Modelled from the spec: the entry of the view for a shard (section 4.3,
    [GetTables]): the role the node holds on it (follower when it holds
    none, the design being silent), its version, and its table ids resolved
    to tables. *)
Definition table_by_id (top : Topology) (tableID : Z) : option Table :=
  head (filter (λ t, table_GetId (meta t) = tableID)
               (map (λ e, e.2.1) (map_to_list (t_tables top)))).

Definition role_on (s : Shard) (nodeName : string) : clusterpb_ShardRole :=
  match head (filter (λ e, e.1 = nodeName) (shard_assigned s)) with
  | Some e => e.2
  | None => ShardRole_FOLLOWER
  end.

Definition shard_view (top : Topology) (nodeName : string) (s : Shard) : ShardTablesWithRole :=
  mkShardTablesWithRole (role_on s nodeName)
    (omap (table_by_id top) (shard_tableIds s)) (shard_version s).

(** Modelled from the spec: [GetTables] of a cluster (section 4.3): for each
    requested shard id that exists, the role and version of the shard and all
    the tables assigned to it, each with its schema. *)
Definition GetTables (c : Cluster) (shardIDs : list Z) (nodeName : string) (w : World)
    : (error + gmap Z ShardTablesWithRole) * World :=
  match object_of w c with
  | None => (inl (ErrNotFound "cluster"), w)
  | Some pb =>
      let top := topology_of w (pb_Id pb) in
      (inr (list_to_map
              (omap (λ id, (λ s, (id, shard_view top nodeName s)) <$> t_shards top !! id)
                    shardIDs)), w)
  end.

(** Modelled from the spec: the shard that lists the table loses it and its
    version is bumped (section 4.3, [DropTable]). *)
Definition remove_table_from_shard (tableID : Z) (s : Shard) : Shard :=
  if bool_decide (tableID ∈ shard_tableIds s) then
    mkShard (shard_assigned s) (shard_version s + 1)
            (filter (λ i, i ≠ tableID) (shard_tableIds s))
  else s.

(** Modelled from the spec: [DropTable] (section 4.3) removes the table from
    its schema's map and from the shard that lists it, bumps that shard's
    version and persists.  An unknown table is a not-found error. *)
Definition DropTable (c : Cluster) (schemaName tableName : string) (tableID : Z)
    (w : World) : option error * World :=
  match object_of w c with
  | None => (Some (ErrNotFound "cluster"), w)
  | Some pb =>
      let top := topology_of w (pb_Id pb) in
      match t_tables top !! (schemaName, tableName) with
      | None => (Some (ErrNotFound "table"), w)
      | Some e =>
          if bool_decide (table_GetId (meta e.1) = tableID) then
            let a := store_access w in
            if a.1 then
              (None, put_topology (pb_Id pb)
                       (set_shards (remove_table_from_shard tableID <$> t_shards top)
                          (set_tables (delete (schemaName, tableName) (t_tables top)) top))
                       a.2)
            else (Some ErrStorage, a.2)
          else (Some (ErrNotFound "table"), w)
      end
  end.

(** Modelled from the spec: [RegisterNode] of a cluster (section 4.3) upserts
    the node with a fresh lease and persists. *)
Definition RegisterNode (c : Cluster) (nodeName : string) (lease : Z) (w : World)
    : option error * World :=
  match object_of w c with
  | None => (Some (ErrNotFound "cluster"), w)
  | Some pb =>
      let a := store_access w in
      if a.1 then
        let top := topology_of a.2 (pb_Id pb) in
        (None, put_topology (pb_Id pb)
                 (set_nodes (<[nodeName := lease]> (t_nodes top)) top) a.2)
      else (Some ErrStorage, a.2)
  end.

(** Modelled from the spec: [GetShardIDs] (section 4.3) returns the ids of
    the shards assigned to the node, as leader or replica; an unknown node is
    a not-found error. *)
Definition GetShardIDs (c : Cluster) (nodeName : string) (w : World)
    : (error + list Z) * World :=
  match object_of w c with
  | None => (inl (ErrNotFound "cluster"), w)
  | Some pb =>
      let top := topology_of w (pb_Id pb) in
      match t_nodes top !! nodeName with
      | None => (inl (ErrNotFound "node"), w)
      | Some _ =>
          (inr (map fst (List.filter (λ e, assigned_to nodeName e.2)
                                     (map_to_list (t_shards top)))), w)
      end
  end.

End ClusterImpl.

Module Coordinator.

(** Modelled from the spec: the choice among candidate nodes (section 4.4,
    step 2): the node with the fewest shards, ties broken by node name. *)
Definition load_of (top : Topology) (nodeName : string) : nat :=
  length (List.filter (λ e, assigned_to nodeName e.2) (map_to_list (t_shards top))).

Definition better (top : Topology) (a b : string) : bool :=
  (load_of top a <? load_of top b)%nat
  || ((load_of top a =? load_of top b)%nat && String.ltb a b).

Definition pick_node (top : Topology) (candidates : list string) : option string :=
  foldr (λ n best,
           match best with
           | None => Some n
           | Some b => if better top n b then Some n else Some b
           end) None candidates.

(** Modelled from the spec: the assignment step of the scatter (section 4.4,
    steps 2 and 3): while the shard lacks replicas and a registered node does
    not hold it yet, the candidate with the fewest shards is assigned, as
    leader if the shard has none and as follower otherwise, and the shard's
    version is bumped. *)
Fixpoint fill_shard (lacking : nat) (shardID : Z) (top : Topology) : Topology :=
  match lacking with
  | O => top
  | S k =>
      match t_shards top !! shardID with
      | None => top
      | Some s =>
          let candidates :=
            List.filter (λ n, negb (assigned_to n s)) (map fst (map_to_list (t_nodes top))) in
          match pick_node top candidates with
          | None => top
          | Some n =>
              let role := if leader_of s is Some _ then ShardRole_FOLLOWER else ShardRole_LEADER in
              fill_shard k shardID
                (set_shards
                   (<[shardID := mkShard (shard_assigned s ++ [(n, role)])%list
                                         (shard_version s + 1) (shard_tableIds s)]>
                      (t_shards top)) top)
          end
      end
  end.

(** Modelled from the spec: the number of node assignments of a shard. *)
Definition replicas_of (top : Topology) (shardID : Z) : nat :=
  match t_shards top !! shardID with
  | Some s => length (shard_assigned s)
  | None => O
  end.

(** Modelled from the spec: one pass of the scatter over the shards (section
    4.4): a shard that is fully assigned is left untouched; a new assignment
    is persisted before the pass goes on, and a failure to persist ends the
    pass with a storage error, the shards persisted so far keeping their
    assignment. *)
Fixpoint scatter_pass (shardIDs : list Z) (clusterID : Z) (replicationFactor : nat)
    (w : World) : option error * World :=
  match shardIDs with
  | [] => (None, w)
  | shardID :: rest =>
      let top := topology_of w clusterID in
      let top' := fill_shard (replicationFactor - replicas_of top shardID) shardID top in
      if (replicas_of top shardID <? replicas_of top' shardID)%nat then
        let a := store_access w in
        if a.1 then
          scatter_pass rest clusterID replicationFactor (put_topology clusterID top' a.2)
        else (Some ErrStorage, a.2)
      else scatter_pass rest clusterID replicationFactor w
  end.

(** Modelled from the spec: [scatterShard] of the coordinator (section 4.4),
    invoked once per node registration for the owning cluster. *)
Definition scatterShard (c : Cluster) (w : World) : option error * World :=
  match object_of w c with
  | None => (Some (ErrNotFound "cluster"), w)
  | Some pb =>
      scatter_pass (map fst (map_to_list (t_shards (topology_of w (pb_Id pb)))))
        (pb_Id pb) (Z.to_nat (pb_ReplicationFactor pb)) w
  end.

End Coordinator.

(** The collaborators of the manager: its allocator works in the name space
    of the cluster ids. *)
#[global] Instance backend : Backend World := λ c,
  match c as c0 return World → Resp c0 * World with
  | alloc_Alloc => Allocator.Alloc AllocClusterIDPrefix
  | storage_CreateCluster pb => Storage.CreateCluster pb
  | NewCluster pb => ClusterImpl.NewCluster pb
  | cluster_init c => ClusterImpl.init c
  | cluster_Load c => ClusterImpl.Load c
  | cluster_GetOrCreateSchema c s => ClusterImpl.GetOrCreateSchema c s
  | cluster_GetOrCreateTable c n s t => ClusterImpl.GetOrCreateTable c n s t
  | cluster_GetTables c ids n => ClusterImpl.GetTables c ids n
  | cluster_DropTable c s t id => ClusterImpl.DropTable c s t id
  | cluster_RegisterNode c n l => ClusterImpl.RegisterNode c n l
  | coordinator_scatterShard c => Coordinator.scatterShard c
  | cluster_GetShardIDs c n => ClusterImpl.GetShardIDs c n
  end.

End Meta.

(** ** Helper definitions for the statements *)

(** The error of a result, if any. *)
Definition failure {A} (r : error + A) : option error :=
  match r with
  | inl e => Some e
  | inr _ => None
  end.

(** The flattened record of a table. *)
Definition info_of (t : Table) : TableInfo :=
  {| ID := table_GetId (meta t);
     Name := table_GetName (meta t);
     SchemaID := schema_GetId (schema t);
     SchemaName := schema_GetName (schema t) |}.

(** The projection of an entry of the view. *)
Definition project (s : ShardTablesWithRole) : ShardTables :=
  {| ShardRole := shardRole s; Tables := map info_of (tables s); Version := version s |}.

(** A run fails with a not-found error and does nothing else: it returns an
    error of kind [NotFoundError], leaves the state of the collaborators as it
    was and calls none of them. *)
Definition fails_not_found {W} (w : W) (err : option error) (w' : W) (t : list Event) : Prop :=
  ∃ e, err = Some e ∧ errKind e = NotFoundError ∧ w' = w ∧ calls t = [].

(** The stored records of the clusters of a given name. *)
Definition records_named (clusterName : string) (w : Meta.World) : list ClusterPb :=
  filter (λ r, pb_Name r = clusterName) (Meta.cluster_records w).

(** The last id the allocator handed out in a name space. *)
Definition counter (w : Meta.World) (prefix : string) : Z :=
  default 0 (Meta.counters w !! prefix).

Definition schemas_of (w : Meta.World) (clusterID : Z) : gmap string SchemaPb :=
  Meta.t_schemas (Meta.topology_of w clusterID).

Definition tables_of (w : Meta.World) (clusterID : Z) : gmap (string * string) (Table * string) :=
  Meta.t_tables (Meta.topology_of w clusterID).

Definition table_id (e : Table * string) : Z := table_GetId (meta e.1).

(** The ids in use were handed out by the allocator, and no two schemas and
    no two tables of a cluster share an id. *)
Definition consistent (w : Meta.World) : Prop :=
  (∀ cid n s, schemas_of w cid !! n = Some s →
     schema_GetId s ≤ counter w AllocSchemaIDPrefix)
  ∧ (∀ cid n1 n2 s1 s2,
       schemas_of w cid !! n1 = Some s1 → schemas_of w cid !! n2 = Some s2 →
       schema_GetId s1 = schema_GetId s2 → n1 = n2)
  ∧ (∀ cid k e, tables_of w cid !! k = Some e →
       table_id e ≤ counter w AllocTableIDPrefix)
  ∧ (∀ cid k1 k2 e1 e2,
       tables_of w cid !! k1 = Some e1 → tables_of w cid !! k2 = Some e2 →
       table_id e1 = table_id e2 → k1 = k2).

(** A later state of the collaborators: one reached by any number of calls,
    each of them allowed. *)
Definition later_by (allowed : Call → bool) : relation Meta.World :=
  rtc (λ w w', ∃ c, allowed c = true ∧ w' = (handle c w).2).

Definition any_call (c : Call) : bool := true.


(** What a step of the collaborators may do to the schemas, the tables, the
    counters of their ids and the cluster objects: counters do not decrease;
    a schema stays as it is; a table that stays is unchanged; a new schema
    or table has an id handed out during the step, and a step adds at most
    one schema and one table to a cluster; objects stay. *)
Definition evolves (w w' : Meta.World) : Prop :=
  counter w AllocSchemaIDPrefix ≤ counter w' AllocSchemaIDPrefix
  ∧ counter w AllocTableIDPrefix ≤ counter w' AllocTableIDPrefix
  ∧ (∀ cid n s, schemas_of w cid !! n = Some s → schemas_of w' cid !! n = Some s)
  ∧ (∀ cid n s, schemas_of w cid !! n = None → schemas_of w' cid !! n = Some s →
       counter w AllocSchemaIDPrefix < schema_GetId s ≤ counter w' AllocSchemaIDPrefix)
  ∧ (∀ cid n1 n2, schemas_of w cid !! n1 = None → schemas_of w cid !! n2 = None →
       is_Some (schemas_of w' cid !! n1) → is_Some (schemas_of w' cid !! n2) → n1 = n2)
  ∧ (∀ cid k e e', tables_of w cid !! k = Some e → tables_of w' cid !! k = Some e' → e' = e)
  ∧ (∀ cid k e, tables_of w cid !! k = None → tables_of w' cid !! k = Some e →
       counter w AllocTableIDPrefix < table_id e ≤ counter w' AllocTableIDPrefix)
  ∧ (∀ cid k1 k2, tables_of w cid !! k1 = None → tables_of w cid !! k2 = None →
       is_Some (tables_of w' cid !! k1) → is_Some (tables_of w' cid !! k2) → k1 = k2)
  ∧ (∀ c pb, Meta.object_of w c = Some pb → Meta.object_of w' c = Some pb).


(** A step that leaves the schemas, the tables and the counters of their ids
    as they are. *)
Definition quiet (w w' : Meta.World) : Prop :=
  (∀ cid, schemas_of w' cid = schemas_of w cid)
  ∧ (∀ cid, tables_of w' cid = tables_of w cid)
  ∧ counter w' AllocSchemaIDPrefix = counter w AllocSchemaIDPrefix
  ∧ counter w' AllocTableIDPrefix = counter w AllocTableIDPrefix
  ∧ (∀ c pb, Meta.object_of w c = Some pb → Meta.object_of w' c = Some pb).

(** Modelled from the spec: [ListClusters] of the storage (section 6) returns
    the stored cluster records; [Name] of a cluster object is the name of
    the record it was constructed from.  Both are declared outside
    manager.go. *)
#[global] Instance Meta_startup : Startup Meta.World := {|
  storage_ListClusters w :=
    let a := Meta.store_access w in
    if a.1 then (inr (Meta.cluster_records a.2), a.2) else (inl Meta.ErrStorage, a.2);
  cluster_Name c w := default "" (pb_Name <$> Meta.object_of w c)
|}.

(** The error-log lines of a run, the calls left out. *)
Definition log_lines (t : list Event) : list string :=
  omap (λ e, match e with EvLog msg => Some msg | EvCall _ => None end) t.

(** The cluster object a call is made on, if any: the allocator, the storage
    and the construction of an object are made on none. *)
Definition target (c : Call) : option Cluster :=
  match c with
  | alloc_Alloc | storage_CreateCluster _ | NewCluster _ => None
  | cluster_init cluster | cluster_Load cluster
  | cluster_GetOrCreateSchema cluster _ | cluster_GetOrCreateTable cluster _ _ _
  | cluster_GetTables cluster _ _ | cluster_DropTable cluster _ _ _
  | cluster_RegisterNode cluster _ _ | coordinator_scatterShard cluster
  | cluster_GetShardIDs cluster _ => Some cluster
  end.


(** ** A scenario

    The scenario of the design: a cluster "db1" of three nodes, replication
    factor two and four shards is created in an empty store; two nodes
    register. *)
Module Scenario.

Definition m0 : managerImpl := mkManager ∅.

Definition created := run (CreateCluster m0 "db1" 3 2 4) Meta.empty_world.
Definition m1 : managerImpl := created.1.1.2.
Definition w1 : Meta.World := created.1.2.

Definition with_schema := run (AllocSchemaID m1 "db1" "public") w1.
Definition wP : Meta.World := with_schema.1.2.
Definition with_table := run (AllocTableID m1 "db1" "public" "t1" "node-1") wP.
Definition wT : Meta.World := with_table.1.2.

Definition registered1 := run (RegisterNode m1 "db1" "node-1" 30) wT.
Definition registered2 := run (RegisterNode m1 "db1" "node-2" 30) registered1.1.2.
Definition w2 : Meta.World := registered2.1.2.

(** A store whose third access fails: the allocation and the record of a
    cluster go through, the initialisation of its shards does not. *)
Definition w_fail : Meta.World := Meta.set_faults [false; false; true] Meta.empty_world.

(** The states of a creation on that store. *)
Definition pb1 : ClusterPb := mkClusterPb 1 "db1" 3 2 4.

Definition wa : Meta.World := (handle alloc_Alloc w_fail).2.
Definition wb : Meta.World := (handle (storage_CreateCluster pb1) wa).2.
Definition wc : Meta.World := (handle (NewCluster pb1) wb).2.
Definition wd : Meta.World := (handle (cluster_init (ClusterRef 0)) wc).2.

Definition the_view (c : Call) (w : Meta.World) : gmap Z ShardTablesWithRole :=
  match c as c0 return Resp c0 → gmap Z ShardTablesWithRole with
  | cluster_GetTables _ _ _ => λ r, match r with inr v => v | inl _ => ∅ end
  | _ => λ _, ∅
  end (handle c w).1.

End Scenario.

(** More states for the scenario: a store whose first access fails, one
    whose second access fails, an allocator that has handed out 2^32 cluster
    ids, and the manager of a process that restarts on the store of the
    scenario. *)
Module Restart.

Definition w_no_alloc : Meta.World := Meta.set_faults [true] Meta.empty_world.
Definition w_no_store : Meta.World := Meta.set_faults [false; true] Meta.empty_world.
Definition w_many : Meta.World :=
  Meta.set_counters {[ AllocClusterIDPrefix := 2 ^ 32 ]} Meta.empty_world.


Definition shard_a : ShardTablesWithRole :=
  mkShardTablesWithRole ShardRole_LEADER
    [mkTable (mkSchemaPb 1 "public") (mkTablePb 1 "t1")] 3.
Definition shard_b : ShardTablesWithRole := mkShardTablesWithRole ShardRole_FOLLOWER [] 2.

End Restart.

(** ** The manager over any collaborators *)

Section Manager.
Context {W : Type} `{!Backend W}.

Lemma run_bind {A B} (p : Prog A) (f : A → Prog B) (w : W) :
  run (bind p f) w =
    let r := run p w in
    let r' := run (f r.1.1) r.1.2 in
    (r'.1.1, r'.1.2, (r.2 ++ r'.2)%list).
Proof.
  revert w. induction p as [a | msg k IH | c k IH]; intros w; simpl.
  - by destruct (run (f a) w) as [[??]?].
  - rewrite IH. reflexivity.
  - rewrite IH. reflexivity.
Qed.

(** C2: creating a cluster with a node count of zero fails with a validation
    error whatever the name, the replication factor and the shard total are;
    the state of the collaborators (the stored records and the allocator's
    counter among it) is unchanged, no collaborator is called, and the
    registry is unchanged. *)
Theorem CreateCluster_zero_nodes (m : managerImpl) (w : W) (clusterName : string)
    (replicationFactor shardTotal : Z) :
  let r := run (CreateCluster m clusterName 0 replicationFactor shardTotal) w in
  (∃ e, r.1.1 = (inl e, m) ∧ errKind e = ValidationError)
  ∧ r.1.2 = w
  ∧ calls r.2 = [].
Proof.
  simpl. split; [|done].
  eexists. split; [reflexivity|]. reflexivity.
Qed.

(** C10: creating a cluster under a name that is already registered returns
    [ErrClusterAlreadyExists], an already-exists error, before any id is
    allocated and before any write to the storage: no collaborator is called,
    so the allocator's counter and the durable store are unchanged, and the
    registry is unchanged. *)
Theorem CreateCluster_exists_frame (m : managerImpl) (w : W) (clusterName : string)
    (initialNodeCount replicationFactor shardTotal : Z) (c : Cluster) :
  1 ≤ initialNodeCount →
  clusters m !! clusterName = Some c →
  run (CreateCluster m clusterName initialNodeCount replicationFactor shardTotal) w
    = (inl ErrClusterAlreadyExists, m, w, [EvLog "cluster already exists"])
  ∧ errKind ErrClusterAlreadyExists = AlreadyExistsError.
Proof.
  intros Hn Hc. split; [|reflexivity].
  unfold CreateCluster.
  destruct (Z.ltb_spec initialNodeCount 1) as [?|_]; [lia|].
  by rewrite Hc.
Qed.

(** C5: on a cluster name that is not in the registry, each of [GetShards],
    [GetTables], [DropTable], [RegisterNode], [AllocSchemaID] and
    [AllocTableID] fails with an error of kind [NotFoundError], a kind that
    differs from the validation and already-exists kinds; the state of the
    collaborators is unchanged and no call is delegated to a cluster. *)
Theorem unknown_cluster_not_found (m : managerImpl) (w : W) (clusterName : string)
    (nodeName schemaName tableName : string) (shardIDs : list Z) (tableID lease : Z) :
  clusters m !! clusterName = None →
  (let r := run (GetShards m clusterName nodeName) w in
   fails_not_found w (failure r.1.1) r.1.2 r.2)
  ∧ (let r := run (GetTables m clusterName nodeName shardIDs) w in
     fails_not_found w (failure r.1.1) r.1.2 r.2)
  ∧ (let r := run (DropTable m clusterName schemaName tableName tableID) w in
     fails_not_found w r.1.1 r.1.2 r.2)
  ∧ (let r := run (RegisterNode m clusterName nodeName lease) w in
     fails_not_found w r.1.1 r.1.2 r.2)
  ∧ (let r := run (AllocSchemaID m clusterName schemaName) w in
     fails_not_found w (failure r.1.1) r.1.2 r.2)
  ∧ (let r := run (AllocTableID m clusterName schemaName tableName nodeName) w in
     fails_not_found w (failure r.1.1) r.1.2 r.2)
  ∧ NotFoundError ≠ ValidationError
  ∧ NotFoundError ≠ AlreadyExistsError.
Proof.
  intros Hc.
  unfold GetShards, GetTables, DropTable, RegisterNode, AllocSchemaID, AllocTableID,
    getCluster, fails_not_found.
  rewrite Hc. simpl.
  repeat split; try discriminate; eexists; (split; [reflexivity|done]).
Qed.

(** The calls behind a successful [CreateCluster]. *)
Lemma CreateCluster_inr (m m' : managerImpl) (w w' : W)
    (clusterName : string) (initialNodeCount replicationFactor shardTotal : Z)
    (cluster : Cluster) (t : list Event) :
  run (CreateCluster m clusterName initialNodeCount replicationFactor shardTotal) w
    = (inr cluster, m', w', t) →
  ∃ (ID : Z) (persisted : ClusterPb) (w1 w2 w3 w4 : W),
    let clusterPb := {| pb_Id := uint32 ID;
                        pb_Name := clusterName;
                        pb_MinNodeCount := initialNodeCount;
                        pb_ReplicationFactor := replicationFactor;
                        pb_ShardTotal := shardTotal |} in
    handle alloc_Alloc w = (inr ID, w1)
    ∧ handle (storage_CreateCluster clusterPb) w1 = (inr persisted, w2)
    ∧ handle (NewCluster persisted) w2 = (cluster, w3)
    ∧ handle (cluster_init cluster) w3 = (None, w4)
    ∧ handle (cluster_Load cluster) w4 = (None, w')
    ∧ t = [EvCall alloc_Alloc;
           EvCall (storage_CreateCluster clusterPb);
           EvCall (NewCluster persisted);
           EvCall (cluster_init cluster);
           EvCall (cluster_Load cluster)]
    ∧ m' = mkManager (<[clusterName := cluster]> (clusters m))
    ∧ 1 ≤ initialNodeCount
    ∧ clusters m !! clusterName = None.
Proof.
  unfold CreateCluster, allocClusterID. intros H.
  destruct (Z.ltb_spec initialNodeCount 1) as [?|Hn]; [discriminate H|].
  destruct (clusters m !! clusterName) eqn:Hc; [discriminate H|].
  simpl in H.
  destruct (handle alloc_Alloc w) as [[e|ID] w1] eqn:H1; simpl in H; [discriminate H|].
  destruct (handle (storage_CreateCluster _) w1) as [[e|persisted] w2] eqn:H2;
    simpl in H; [discriminate H|].
  destruct (handle (NewCluster persisted) w2) as [c w3] eqn:H3; simpl in H.
  destruct (handle (cluster_init c) w3) as [[e|] w4] eqn:H4; simpl in H; [discriminate H|].
  destruct (handle (cluster_Load c) w4) as [[e|] w5] eqn:H5; simpl in H; [discriminate H|].
  injection H as <- <- <- <-.
  exists ID, persisted, w1, w2, w3, w4. simpl. by rewrite H2, H3, H4, H5.
Qed.

(** C3: when [CreateCluster] succeeds it has made exactly these calls, in
    this order, each on the state the previous one left: an id is allocated;
    the record with that id (converted to 32 bits), the given name, node
    count, replication factor and shard total is persisted; the cluster
    object of the persisted record is constructed, initialised and loaded;
    the object is inserted in the registry under the given name and
    returned. *)
Theorem CreateCluster_success_sequence (m m' : managerImpl) (w w' : W)
    (clusterName : string) (initialNodeCount replicationFactor shardTotal : Z)
    (cluster : Cluster) (t : list Event) :
  run (CreateCluster m clusterName initialNodeCount replicationFactor shardTotal) w
    = (inr cluster, m', w', t) →
  ∃ (ID : Z) (persisted : ClusterPb) (w1 w2 w3 w4 : W),
    let clusterPb := {| pb_Id := uint32 ID;
                        pb_Name := clusterName;
                        pb_MinNodeCount := initialNodeCount;
                        pb_ReplicationFactor := replicationFactor;
                        pb_ShardTotal := shardTotal |} in
    handle alloc_Alloc w = (inr ID, w1)
    ∧ handle (storage_CreateCluster clusterPb) w1 = (inr persisted, w2)
    ∧ handle (NewCluster persisted) w2 = (cluster, w3)
    ∧ handle (cluster_init cluster) w3 = (None, w4)
    ∧ handle (cluster_Load cluster) w4 = (None, w')
    ∧ t = [EvCall alloc_Alloc;
           EvCall (storage_CreateCluster clusterPb);
           EvCall (NewCluster persisted);
           EvCall (cluster_init cluster);
           EvCall (cluster_Load cluster)]
    ∧ m' = mkManager (<[clusterName := cluster]> (clusters m))
    ∧ 1 ≤ initialNodeCount
    ∧ clusters m !! clusterName = None.
Proof. apply CreateCluster_inr. Qed.

(** [CreateCluster] never replaces a registered cluster. *)
Lemma CreateCluster_keeps_registered (m : managerImpl) (w : W) (clusterName : string)
    (initialNodeCount replicationFactor shardTotal : Z) (name : string) (c : Cluster) :
  clusters m !! name = Some c →
  clusters (run (CreateCluster m clusterName initialNodeCount replicationFactor shardTotal)
              w).1.1.2 !! name = Some c.
Proof.
  intros Hc. unfold CreateCluster, allocClusterID.
  destruct (initialNodeCount <? 1); [done|].
  destruct (clusters m !! clusterName) eqn:Hn; [done|].
  simpl.
  destruct (handle alloc_Alloc w) as [[e|ID] w1]; simpl; [done|].
  destruct (handle (storage_CreateCluster _) w1) as [[e|persisted] w2]; simpl; [done|].
  destruct (handle (NewCluster persisted) w2) as [c' w3]; simpl.
  destruct (handle (cluster_init c') w3) as [[e|] w4]; simpl; [done|].
  destruct (handle (cluster_Load c') w4) as [[e|] w5]; simpl; [done|].
  rewrite lookup_insert_ne; [done|]. intros ->. congruence.
Qed.

(** C4: when the record of the new cluster has been persisted and the
    initialisation of the cluster fails, or the initialisation succeeds and
    the load fails, [CreateCluster] returns an error (the failure, wrapped)
    and the registry is unchanged: a lookup of the name in the registry still
    fails with a not-found error. *)
Theorem CreateCluster_partial_failure (m : managerImpl) (w w1 w2 w3 w4 : W)
    (clusterName : string) (initialNodeCount replicationFactor shardTotal : Z)
    (ID : Z) (persisted : ClusterPb) (cluster : Cluster) (e : error) :
  1 ≤ initialNodeCount →
  clusters m !! clusterName = None →
  handle alloc_Alloc w = (inr ID, w1) →
  handle (storage_CreateCluster
            {| pb_Id := uint32 ID;
               pb_Name := clusterName;
               pb_MinNodeCount := initialNodeCount;
               pb_ReplicationFactor := replicationFactor;
               pb_ShardTotal := shardTotal |}) w1 = (inr persisted, w2) →
  handle (NewCluster persisted) w2 = (cluster, w3) →
  (handle (cluster_init cluster) w3 = (Some e, w4)
   ∨ ∃ w', handle (cluster_init cluster) w3 = (None, w')
           ∧ handle (cluster_Load cluster) w' = (Some e, w4)) →
  let r := run (CreateCluster m clusterName initialNodeCount replicationFactor shardTotal) w in
  r.1.1 = (inl (Wrapf e "clusters manager CreateCluster, clusterName:%s" [ArgS clusterName]), m)
  ∧ r.1.2 = w4
  ∧ ∃ e', getCluster r.1.1.2 clusterName = inl e' ∧ errKind e' = NotFoundError.
Proof.
  intros Hn Hc H1 H2 H3 H45.
  unfold CreateCluster, allocClusterID.
  destruct (Z.ltb_spec initialNodeCount 1) as [?|_]; [lia|].
  rewrite Hc. simpl. rewrite H1. simpl. rewrite H2. simpl. rewrite H3. simpl.
  destruct H45 as [H4 | (w' & H4 & H5)].
  - rewrite H4. simpl. repeat split.
    unfold getCluster. rewrite Hc. by eexists.
  - rewrite H4. simpl. rewrite H5. simpl. repeat split.
    unfold getCluster. rewrite Hc. by eexists.
Qed.

(** C7: on a registered cluster, [RegisterNode] first registers the node with
    its lease on the cluster and then, in the state the registration left,
    runs the coordinator's scatter.  When [RegisterNode] returns without an
    error both calls have returned without one, the final state is the one
    the scatter left, and [GetShards] and [GetTables] called next read the
    cluster in that state. *)
Theorem RegisterNode_then_scatter (m : managerImpl) (w : W) (clusterName nodeName : string)
    (lease : Z) (cluster : Cluster) :
  clusters m !! clusterName = Some cluster →
  let r := run (RegisterNode m clusterName nodeName lease) w in
  let reg := handle (cluster_RegisterNode cluster nodeName lease) w in
  let sc := handle (coordinator_scatterShard cluster) reg.2 in
  (match reg.1 with
   | Some e =>
       r = (Some (Wrap e "clusters manager RegisterNode"), reg.2,
            [EvCall (cluster_RegisterNode cluster nodeName lease)])
   | None =>
       r = (match sc.1 with Some e => Some (Wrap e "RegisterNode") | None => None end,
            sc.2,
            [EvCall (cluster_RegisterNode cluster nodeName lease);
             EvCall (coordinator_scatterShard cluster)])
   end)
  ∧ (r.1.1 = None →
     reg.1 = None ∧ sc.1 = None ∧ r.1.2 = sc.2
     ∧ (∀ node,
          let g := run (GetShards m clusterName node) r.1.2 in
          g.2 = [EvCall (cluster_GetShardIDs cluster node)]
          ∧ failure g.1.1 =
              (λ e, Wrap e "clusters manager GetShards")
                <$> failure (handle (cluster_GetShardIDs cluster node) sc.2).1
          ∧ (∀ ids, (handle (cluster_GetShardIDs cluster node) sc.2).1 = inr ids →
                    g.1.1 = inr ids))
     ∧ (∀ node shardIDs,
          let g := run (GetTables m clusterName node shardIDs) r.1.2 in
          g.2 = [EvCall (cluster_GetTables cluster shardIDs node)]
          ∧ (∀ view, (handle (cluster_GetTables cluster shardIDs node) sc.2).1 = inr view →
                     g.1.1 = inr (GetTables_loop (map_to_list view) ∅)))).
Proof.
  intros Hc. unfold RegisterNode, GetShards, GetTables, getCluster. rewrite Hc. simpl.
  destruct (handle (cluster_RegisterNode cluster nodeName lease) w) as [[e|] w1] eqn:H1;
    simpl.
  { split; [done|]. discriminate. }
  destruct (handle (coordinator_scatterShard cluster) w1) as [[e|] w2] eqn:H2; simpl.
  { split; [done|]. discriminate. }
  split; [done|]. intros _.
  split; [done|]. split; [done|]. split; [done|]. split.
  - intros node.
    destruct (handle (cluster_GetShardIDs cluster node) w2) as [[e|ids'] w3];
      simpl; (split; [done|]); (split; [done|]); intros ids Hg; congruence.
  - intros node shardIDs.
    destruct (handle (cluster_GetTables cluster shardIDs node) w2) as [[e|view'] w3];
      simpl; (split; [done|]); intros view Hg; congruence.
Qed.

(** *** The loops of [GetTables] *)

Lemma tableInfos_loop_map (ts : list Table) : tableInfos_loop ts = map info_of ts.
Proof.
  unfold tableInfos_loop.
  enough (G : ∀ acc : list TableInfo,
             foldl (λ tableInfos t, (tableInfos ++ [info_of t])%list) acc ts
             = (acc ++ map info_of ts)%list) by apply (G []).
  induction ts as [|t ts IH]; intros acc; simpl.
  - by rewrite app_nil_r.
  - rewrite IH, <- app_assoc. reflexivity.
Qed.

Lemma GetTables_loop_lookup (l : list (Z * ShardTablesWithRole)) (ret : gmap Z ShardTables)
    (k : Z) :
  NoDup l.*1 →
  GetTables_loop l ret !! k
  = union (project <$> (list_to_map l : gmap Z ShardTablesWithRole) !! k) (ret !! k).
Proof.
  revert ret. induction l as [|[k0 v0] l IH]; intros ret Hnd; simpl.
  - rewrite lookup_empty. simpl. by destruct (ret !! k).
  - apply NoDup_cons in Hnd as [Hk0 Hnd].
    unfold GetTables_loop in *. simpl. rewrite IH by done.
    rewrite tableInfos_loop_map. fold (project v0).
    destruct (decide (k0 = k)) as [->|Hne].
    + rewrite !lookup_insert_eq. simpl.
      rewrite (not_elem_of_list_to_map_1 _ _ Hk0). by destruct (ret !! k).
    + by rewrite !lookup_insert_ne.
Qed.

(** The loop over the entries of a view computes the projection of the view,
    in whatever order the entries are visited. *)
Lemma GetTables_loop_any_order (view : gmap Z ShardTablesWithRole)
    (l : list (Z * ShardTablesWithRole)) :
  l ≡ₚ map_to_list view →
  GetTables_loop l ∅ = project <$> view.
Proof.
  intros Hl. apply map_eq. intros k.
  assert (Hnd : NoDup l.*1).
  { rewrite Hl. apply NoDup_fst_map_to_list. }
  rewrite GetTables_loop_lookup by done.
  rewrite (list_to_map_proper _ _ Hnd Hl), list_to_map_to_list.
  rewrite lookup_fmap, lookup_empty.
  by destruct (view !! k).
Qed.

Lemma GetTables_loop_fmap (view : gmap Z ShardTablesWithRole) :
  GetTables_loop (map_to_list view) ∅ = project <$> view.
Proof. by apply GetTables_loop_any_order. Qed.

Lemma run_GetTables (m : managerImpl) (w w' : W) (clusterName nodeName : string)
    (shardIDs : list Z) (cluster : Cluster) (view : gmap Z ShardTablesWithRole) :
  clusters m !! clusterName = Some cluster →
  handle (cluster_GetTables cluster shardIDs nodeName) w = (inr view, w') →
  run (GetTables m clusterName nodeName shardIDs) w
  = (inr (project <$> view), w', [EvCall (cluster_GetTables cluster shardIDs nodeName)]).
Proof.
  intros Hc Hv. unfold GetTables, getCluster. rewrite Hc. simpl. rewrite Hv. simpl.
  by rewrite GetTables_loop_fmap.
Qed.

(** C8: on a registered cluster whose view for the requested shards is
    [view], [GetTables] returns a map that has, for every shard of the view,
    a [ShardTables] with the role and the version of that shard and, in the
    order of the view, one [TableInfo] per table of the shard holding the
    table's id and name and the id and name of its schema. *)
Theorem GetTables_projects_view (m : managerImpl) (w w' : W) (clusterName nodeName : string)
    (shardIDs : list Z) (cluster : Cluster) (view : gmap Z ShardTablesWithRole) :
  clusters m !! clusterName = Some cluster →
  handle (cluster_GetTables cluster shardIDs nodeName) w = (inr view, w') →
  ∃ ret : gmap Z ShardTables,
    run (GetTables m clusterName nodeName shardIDs) w
      = (inr ret, w', [EvCall (cluster_GetTables cluster shardIDs nodeName)])
    ∧ ∀ shardID shardTables, view !! shardID = Some shardTables →
        ∃ st, ret !! shardID = Some st
              ∧ ShardRole st = shardRole shardTables
              ∧ Version st = version shardTables
              ∧ length (Tables st) = length (tables shardTables)
              ∧ ∀ (i : nat) t, tables shardTables !! i = Some t →
                  Tables st !! i
                  = Some {| ID := table_GetId (meta t);
                            Name := table_GetName (meta t);
                            SchemaID := schema_GetId (schema t);
                            SchemaName := schema_GetName (schema t) |}.
Proof.
  intros Hc Hv. exists (project <$> view). split; [by apply run_GetTables|].
  intros shardID st Hst. exists (project st).
  rewrite lookup_fmap, Hst. simpl. repeat split.
  - by rewrite length_map.
  - intros i t Ht. by rewrite list_lookup_fmap, Ht.
Qed.

(** C9: the keys of the map [GetTables] returns are the keys of the cluster's
    view, not the requested shard ids: a requested id that the view lacks has
    no entry in the result, which is still a success, and every key of the
    result is a key of the view. *)
Theorem GetTables_keys_of_view (m : managerImpl) (w w' : W) (clusterName nodeName : string)
    (shardIDs : list Z) (cluster : Cluster) (view : gmap Z ShardTablesWithRole) :
  clusters m !! clusterName = Some cluster →
  handle (cluster_GetTables cluster shardIDs nodeName) w = (inr view, w') →
  ∃ ret : gmap Z ShardTables,
    (run (GetTables m clusterName nodeName shardIDs) w).1.1 = inr ret
    ∧ dom ret = dom view
    ∧ (∀ shardID, shardID ∈ shardIDs → view !! shardID = None → ret !! shardID = None)
    ∧ (∀ shardID, is_Some (ret !! shardID) → is_Some (view !! shardID)).
Proof.
  intros Hc Hv. exists (project <$> view).
  rewrite (run_GetTables _ _ _ _ _ _ _ _ Hc Hv). simpl.
  split; [done|]. split; [apply dom_fmap_L|]. split.
  - intros k _ Hk. by rewrite lookup_fmap, Hk.
  - intros k. rewrite lookup_fmap. by rewrite fmap_is_Some.
Qed.

End Manager.

(** ** The manager over the collaborators of the design *)

Section MetaStorage.
Import Meta.

Lemma store_access_records (w : World) :
  cluster_records (store_access w).2 = cluster_records w.
Proof. unfold store_access. by destruct (faults w). Qed.

Lemma Alloc_records (prefix : string) (w : World) :
  cluster_records (Allocator.Alloc prefix w).2 = cluster_records w.
Proof.
  unfold Allocator.Alloc. simpl.
  destruct (store_access w).1 eqn:E; simpl; apply store_access_records.
Qed.

Lemma NewCluster_records (pb : ClusterPb) (w : World) :
  cluster_records (ClusterImpl.NewCluster pb w).2 = cluster_records w.
Proof. reflexivity. Qed.

Lemma init_records (c : Cluster) (w : World) :
  cluster_records (ClusterImpl.init c w).2 = cluster_records w.
Proof.
  unfold ClusterImpl.init. destruct (object_of w c); [|done].
  simpl. destruct (store_access w).1; simpl; apply store_access_records.
Qed.

Lemma Load_records (c : Cluster) (w : World) :
  cluster_records (ClusterImpl.Load c w).2 = cluster_records w.
Proof.
  unfold ClusterImpl.Load. destruct (object_of w c); [|done].
  simpl. destruct (store_access w).1; simpl; apply store_access_records.
Qed.

(** A record that the storage accepts is the only stored record of its name. *)
Lemma CreateCluster_records (pb persisted : ClusterPb) (w w' : World) :
  Storage.CreateCluster pb w = (inr persisted, w') →
  records_named (pb_Name pb) w' = [pb].
Proof.
  unfold Storage.CreateCluster, records_named. simpl.
  destruct (store_access w).1; [|discriminate].
  destruct (existsb _ _) eqn:Ex; [discriminate|].
  intros [= _ <-]. simpl. rewrite store_access_records in *.
  rewrite filter_app.
  assert (Hnone : filter (λ r, pb_Name r = pb_Name pb) (cluster_records w) = []).
  { apply not_true_iff_false in Ex. rewrite existsb_exists in Ex.
    induction (cluster_records w) as [|r rs IH]; [done|].
    rewrite filter_cons. destruct (decide (pb_Name r = pb_Name pb)) as [Hr|Hr].
    - exfalso. apply Ex. exists r. split; [by left|]. apply bool_decide_eq_true. by right.
    - apply IH. intros (x & Hx & Hd). apply Ex. exists x. split; [by right|done]. }
  rewrite Hnone. simpl. rewrite filter_cons. by rewrite decide_True.
Qed.

(** C1: when a first [CreateCluster] has succeeded, a second one under the
    same name, with a node count of at least one, fails with
    [ErrClusterAlreadyExists], an already-exists error, and after the two
    calls the store holds exactly one cluster record of that name, the one
    the first call persisted. *)
Theorem CreateCluster_twice (m m1 : managerImpl) (w w1 : World) (clusterName : string)
    (n rf st n2 rf2 st2 : Z) (cluster : Cluster) (t : list Event) :
  run (CreateCluster m clusterName n rf st) w = (inr cluster, m1, w1, t) →
  1 ≤ n2 →
  let r := run (CreateCluster m1 clusterName n2 rf2 st2) w1 in
  r.1.1.1 = inl ErrClusterAlreadyExists
  ∧ errKind ErrClusterAlreadyExists = AlreadyExistsError
  ∧ length (records_named clusterName r.1.2) = 1%nat
  ∧ ∃ ID, records_named clusterName r.1.2
          = [ {| pb_Id := uint32 ID; pb_Name := clusterName; pb_MinNodeCount := n;
                 pb_ReplicationFactor := rf; pb_ShardTotal := st |} ].
Proof.
  intros H1 Hn2.
  apply CreateCluster_inr in H1
    as (ID & persisted & wa & wb & wc & wd & Ha & Hb & Hc & Hd & He & _ & -> & _ & _).
  assert (Hrec : records_named clusterName w1
                 = [ {| pb_Id := uint32 ID; pb_Name := clusterName; pb_MinNodeCount := n;
                        pb_ReplicationFactor := rf; pb_ShardTotal := st |} ]).
  { unfold records_named.
    replace (cluster_records w1) with (cluster_records wb).
    - apply (CreateCluster_records _ _ _ _ Hb).
    - rewrite <- (f_equal snd He : (ClusterImpl.Load cluster wd).2 = w1), Load_records.
      rewrite <- (f_equal snd Hd : (ClusterImpl.init cluster wc).2 = wd), init_records.
      by rewrite <- (f_equal snd Hc : (ClusterImpl.NewCluster persisted wb).2 = wc). }
  unfold CreateCluster.
  destruct (Z.ltb_spec n2 1) as [?|_]; [lia|].
  simpl. rewrite lookup_insert_eq. simpl.
  rewrite Hrec. split; [done|]. split; [done|]. split; [done|]. by exists ID.
Qed.

End MetaStorage.

Section MetaIds.
Import Meta.

Lemma quiet_refl (w : World) : quiet w w.
Proof. by repeat split. Qed.

Lemma quiet_trans (w1 w2 w3 : World) : quiet w1 w2 → quiet w2 w3 → quiet w1 w3.
Proof.
  intros (A1 & A2 & A3 & A4 & A5) (B1 & B2 & B3 & B4 & B5).
  repeat split; intros; try congruence; eauto.
Qed.

Lemma quiet_evolves (w w' : World) : quiet w w' → evolves w w'.
Proof.
  intros (A1 & A2 & A3 & A4 & A5). unfold evolves.
  rewrite A3, A4.
  split; [lia|]. split; [lia|].
  split. { intros cid n s. by rewrite A1. }
  split. { intros cid n s. rewrite A1. congruence. }
  split. { intros cid n1 n2. rewrite A1. intros H1 _ [x Hx] _. congruence. }
  split. { intros cid k e e'. rewrite A2. congruence. }
  split. { intros cid k e. rewrite A2. congruence. }
  split. { intros cid k1 k2. rewrite A2. intros H1 _ [x Hx] _. congruence. }
  done.
Qed.


Lemma store_access_quiet (w : World) : quiet w (store_access w).2.
Proof. unfold store_access. destruct (faults w); by repeat split. Qed.

Lemma put_topology_quiet (cid : Z) (t : Topology) (w : World) :
  t_schemas t = schemas_of w cid →
  t_tables t = tables_of w cid →
  quiet w (put_topology cid t w).
Proof.
  intros Hs Ht. unfold quiet, schemas_of, tables_of, topology_of, put_topology in *. simpl.
  repeat split; try done; intros cid'.
  - destruct (decide (cid = cid')) as [->|?].
    + by rewrite lookup_insert_eq.
    + by rewrite lookup_insert_ne.
  - destruct (decide (cid = cid')) as [->|?].
    + by rewrite lookup_insert_eq.
    + by rewrite lookup_insert_ne.
Qed.

Lemma set_counters_quiet (prefix : string) (id : Z) (w : World) :
  prefix ≠ AllocSchemaIDPrefix → prefix ≠ AllocTableIDPrefix →
  quiet w (set_counters (<[prefix := id]> (counters w)) w).
Proof.
  intros HS HT. unfold quiet, counter. simpl.
  rewrite !lookup_insert_ne by done. by repeat split.
Qed.

Lemma Alloc_cluster_id_quiet (w : World) :
  quiet w (Allocator.Alloc AllocClusterIDPrefix w).2.
Proof.
  unfold Allocator.Alloc. simpl.
  destruct (store_access w).1; simpl; [|apply store_access_quiet].
  eapply quiet_trans; [apply store_access_quiet|].
  by apply set_counters_quiet.
Qed.

Lemma CreateCluster_quiet (pb : ClusterPb) (w : World) :
  quiet w (Storage.CreateCluster pb w).2.
Proof.
  unfold Storage.CreateCluster. simpl.
  destruct (store_access w).1; simpl; [|apply store_access_quiet].
  destruct (existsb _ _); simpl; [apply store_access_quiet|].
  eapply quiet_trans; [apply store_access_quiet|]. by repeat split.
Qed.

Lemma NewCluster_quiet (pb : ClusterPb) (w : World) :
  quiet w (ClusterImpl.NewCluster pb w).2.
Proof.
  repeat split; try done.
  intros c pb'. unfold object_of. simpl. intros H. by apply lookup_app_l_Some.
Qed.

Lemma init_quiet (c : Cluster) (w : World) : quiet w (ClusterImpl.init c w).2.
Proof.
  unfold ClusterImpl.init. destruct (object_of w c) as [pb|]; [|apply quiet_refl].
  simpl. destruct (store_access w).1; simpl; [|apply store_access_quiet].
  eapply quiet_trans; [apply store_access_quiet|]. by apply put_topology_quiet.
Qed.

Lemma Load_quiet (c : Cluster) (w : World) : quiet w (ClusterImpl.Load c w).2.
Proof.
  unfold ClusterImpl.Load. destruct (object_of w c) as [pb|]; [|apply quiet_refl].
  simpl. destruct (store_access w).1; simpl; apply store_access_quiet.
Qed.

Lemma GetTables_quiet (c : Cluster) (ids : list Z) (n : string) (w : World) :
  quiet w (ClusterImpl.GetTables c ids n w).2.
Proof.
  unfold ClusterImpl.GetTables. destruct (object_of w c); apply quiet_refl.
Qed.

Lemma GetShardIDs_quiet (c : Cluster) (n : string) (w : World) :
  quiet w (ClusterImpl.GetShardIDs c n w).2.
Proof.
  unfold ClusterImpl.GetShardIDs. destruct (object_of w c); [|apply quiet_refl].
  destruct (_ !! n); apply quiet_refl.
Qed.

Lemma RegisterNode_quiet (c : Cluster) (n : string) (lease : Z) (w : World) :
  quiet w (ClusterImpl.RegisterNode c n lease w).2.
Proof.
  unfold ClusterImpl.RegisterNode. destruct (object_of w c) as [pb|]; [|apply quiet_refl].
  simpl. destruct (store_access w).1; simpl; [|apply store_access_quiet].
  eapply quiet_trans; [apply store_access_quiet|]. by apply put_topology_quiet.
Qed.

Lemma fill_shard_names (k : nat) (id : Z) (top : Topology) :
  t_schemas (Coordinator.fill_shard k id top) = t_schemas top
  ∧ t_tables (Coordinator.fill_shard k id top) = t_tables top.
Proof.
  revert top. induction k as [|k IH]; intros top; simpl; [done|].
  destruct (t_shards top !! id) as [s|]; [|done].
  destruct (Coordinator.pick_node _ _); [|done].
  destruct (IH (set_shards
                  (<[id := mkShard (shard_assigned s ++ [(s0, if leader_of s is Some _
                                                                then ShardRole_FOLLOWER
                                                                else ShardRole_LEADER)])%list
                                    (shard_version s + 1) (shard_tableIds s)]>
                     (t_shards top)) top)) as [-> ->].
  done.
Qed.

Lemma scatter_pass_quiet (ids : list Z) (cid : Z) (rf : nat) (w : World) :
  quiet w (Coordinator.scatter_pass ids cid rf w).2.
Proof.
  revert w. induction ids as [|id ids IH]; intros w; simpl; [apply quiet_refl|].
  destruct (_ <? _)%nat; [|apply IH].
  destruct (store_access w).1 eqn:E; simpl; [|apply store_access_quiet].
  eapply quiet_trans; [|apply IH].
  eapply quiet_trans; [apply store_access_quiet|].
  destruct (fill_shard_names
              (rf - Coordinator.replicas_of (topology_of w cid) id) id (topology_of w cid))
    as [Hs Ht].
  apply put_topology_quiet.
  - rewrite Hs. destruct (store_access_quiet w) as (A1 & _). by rewrite A1.
  - rewrite Ht. destruct (store_access_quiet w) as (_ & A2 & _). by rewrite A2.
Qed.

Lemma scatterShard_quiet (c : Cluster) (w : World) : quiet w (Coordinator.scatterShard c w).2.
Proof.
  unfold Coordinator.scatterShard. destruct (object_of w c); [|apply quiet_refl].
  apply scatter_pass_quiet.
Qed.

Lemma store_access_topologies (w : World) : topologies (store_access w).2 = topologies w.
Proof. unfold store_access. by destruct (faults w). Qed.

Lemma store_access_counters (w : World) : counters (store_access w).2 = counters w.
Proof. unfold store_access. by destruct (faults w). Qed.

Lemma store_access_objects (w : World) : objects (store_access w).2 = objects w.
Proof. unfold store_access. by destruct (faults w). Qed.

(** The allocator either fails, changing nothing but the pending faults, or
    hands out the successor of its counter and stores it. *)
Lemma Alloc_cases (prefix : string) (w : World) :
  let r := Allocator.Alloc prefix w in
  topologies r.2 = topologies w ∧ objects r.2 = objects w
  ∧ ((∃ e, r.1 = inl e) ∧ counters r.2 = counters w
     ∨ r.1 = inr (counter w prefix + 1)
       ∧ counters r.2 = <[prefix := counter w prefix + 1]> (counters w)).
Proof.
  unfold Allocator.Alloc, counter. simpl.
  destruct (store_access w).1; simpl;
    rewrite ?store_access_topologies, ?store_access_objects, ?store_access_counters.
  - split; [done|]. split; [done|]. by right.
  - split; [done|]. split; [done|]. left. split; [by eexists|done].
Qed.

(** Counters that grow over unchanged schemas and tables. *)
Lemma grow_evolves (w w' : World) :
  topologies w' = topologies w → objects w' = objects w →
  counter w AllocSchemaIDPrefix ≤ counter w' AllocSchemaIDPrefix →
  counter w AllocTableIDPrefix ≤ counter w' AllocTableIDPrefix →
  evolves w w'.
Proof.
  intros Ht Ho HS HT. unfold evolves, schemas_of, tables_of, topology_of, object_of.
  rewrite Ht, Ho.
  split; [done|]. split; [done|].
  split; [done|]. split; [congruence|].
  split. { intros cid n1 n2 H1 _ [x Hx] _. congruence. }
  split; [congruence|]. split; [congruence|].
  split. { intros cid k1 k2 H1 _ [x Hx] _. congruence. }
  done.
Qed.

Lemma counter_insert (prefix prefix' : string) (id : Z) (w w' : World) :
  counters w' = <[prefix := id]> (counters w) →
  counter w' prefix' = if decide (prefix = prefix') then id else counter w prefix'.
Proof.
  intros H. unfold counter. rewrite H. destruct (decide (prefix = prefix')) as [->|?].
  - by rewrite lookup_insert_eq.
  - by rewrite lookup_insert_ne.
Qed.

Lemma topology_of_put (cid cid' : Z) (t : Topology) (w : World) :
  topology_of (put_topology cid t w) cid'
  = if decide (cid = cid') then t else topology_of w cid'.
Proof.
  unfold topology_of, put_topology. simpl. destruct (decide (cid = cid')) as [->|?].
  - by rewrite lookup_insert_eq.
  - by rewrite lookup_insert_ne.
Qed.

Lemma topology_of_same (w w' : World) (cid : Z) :
  topologies w' = topologies w → topology_of w' cid = topology_of w cid.
Proof. unfold topology_of. by intros ->. Qed.

(** A step that adds one schema, with an id handed out during the step. *)
Lemma insert_schema_evolves (w w0 : World) (cid : Z) (name : string) (s : SchemaPb) :
  let top := topology_of w cid in
  t_schemas top !! name = None →
  topologies w0 = topologies w → objects w0 = objects w →
  counter w AllocSchemaIDPrefix < schema_GetId s ≤ counter w0 AllocSchemaIDPrefix →
  counter w0 AllocTableIDPrefix = counter w AllocTableIDPrefix →
  evolves w (put_topology cid (set_schemas (<[name := s]> (t_schemas top)) top) w0).
Proof.
  intros top Hnone Ht Ho HS HT. subst top.
  unfold evolves, schemas_of, tables_of, counter, object_of in *. simpl.
  assert (Hsame : ∀ c, topology_of w0 c = topology_of w c)
    by (intros; by apply topology_of_same).
  rewrite Ho, HT.
  split; [lia|]. split; [lia|].
  split.
  { intros cid' n s'. rewrite topology_of_put.
    destruct (decide (cid = cid')) as [<-|?]; [|by rewrite Hsame]. simpl.
    intros Hs. rewrite lookup_insert_ne; [done|]. intros ->. congruence. }
  split.
  { intros cid' n s'. rewrite topology_of_put.
    destruct (decide (cid = cid')) as [<-|?]; [|rewrite Hsame; congruence]. simpl.
    destruct (decide (name = n)) as [<-|?].
    - rewrite lookup_insert_eq. intros _ [= <-]. lia.
    - rewrite lookup_insert_ne by done. congruence. }
  split.
  { intros cid' n1 n2. rewrite topology_of_put.
    destruct (decide (cid = cid')) as [<-|?].
    - simpl. intros H1 H2 [x1 Hx1] [x2 Hx2].
      destruct (decide (name = n1)) as [<-|?]; [|rewrite lookup_insert_ne in Hx1; congruence].
      destruct (decide (name = n2)) as [<-|?]; [done|].
      rewrite lookup_insert_ne in Hx2; congruence.
    - rewrite Hsame. intros H1 _ [x Hx] _. congruence. }
  split.
  { intros cid' k e e'. rewrite topology_of_put.
    destruct (decide (cid = cid')) as [<-|?]; rewrite ?Hsame; simpl; congruence. }
  split.
  { intros cid' k e. rewrite topology_of_put.
    destruct (decide (cid = cid')) as [<-|?]; rewrite ?Hsame; simpl; congruence. }
  split.
  { intros cid' k1 k2. rewrite topology_of_put.
    destruct (decide (cid = cid')) as [<-|?]; rewrite ?Hsame; simpl;
      intros H1 _ [x Hx] _; congruence. }
  done.
Qed.

(** A step that changes the tables of one cluster. *)
Lemma put_tables_evolves (w w0 : World) (cid : Z)
    (tb : gmap (string * string) (Table * string)) (sh : gmap Z Shard) :
  let top := topology_of w cid in
  topologies w0 = topologies w → objects w0 = objects w →
  counter w0 AllocSchemaIDPrefix = counter w AllocSchemaIDPrefix →
  counter w AllocTableIDPrefix ≤ counter w0 AllocTableIDPrefix →
  (∀ k e e', t_tables top !! k = Some e → tb !! k = Some e' → e' = e) →
  (∀ k e, t_tables top !! k = None → tb !! k = Some e →
     counter w AllocTableIDPrefix < table_id e ≤ counter w0 AllocTableIDPrefix) →
  (∀ k1 k2, t_tables top !! k1 = None → t_tables top !! k2 = None →
     is_Some (tb !! k1) → is_Some (tb !! k2) → k1 = k2) →
  evolves w (put_topology cid (set_shards sh (set_tables tb top)) w0).
Proof.
  intros top Ht Ho HS HT H1 H2 H3. subst top.
  unfold evolves, schemas_of, tables_of, object_of in *. simpl.
  assert (Hsame : ∀ c, topology_of w0 c = topology_of w c)
    by (intros; by apply topology_of_same).
  rewrite Ho.
  replace (counter (put_topology cid
             (set_shards sh (set_tables tb (topology_of w cid))) w0) AllocSchemaIDPrefix)
    with (counter w0 AllocSchemaIDPrefix) by done.
  replace (counter (put_topology cid
             (set_shards sh (set_tables tb (topology_of w cid))) w0) AllocTableIDPrefix)
    with (counter w0 AllocTableIDPrefix) by done.
  rewrite HS.
  split; [lia|]. split; [lia|].
  split.
  { intros cid' n s'. rewrite topology_of_put.
    destruct (decide (cid = cid')) as [<-|?]; by rewrite ?Hsame. }
  split.
  { intros cid' n s'. rewrite topology_of_put.
    destruct (decide (cid = cid')) as [<-|?]; rewrite ?Hsame; simpl; congruence. }
  split.
  { intros cid' n1 n2. rewrite topology_of_put.
    destruct (decide (cid = cid')) as [<-|?]; rewrite ?Hsame; simpl;
      intros G1 _ [x Hx] _; congruence. }
  split.
  { intros cid' k e e'. rewrite topology_of_put.
    destruct (decide (cid = cid')) as [<-|?]; rewrite ?Hsame; simpl; [apply H1|congruence]. }
  split.
  { intros cid' k e. rewrite topology_of_put.
    destruct (decide (cid = cid')) as [<-|?]; rewrite ?Hsame; simpl; [apply H2|congruence]. }
  split.
  { intros cid' k1 k2. rewrite topology_of_put.
    destruct (decide (cid = cid')) as [<-|?]; rewrite ?Hsame; simpl; [apply H3|].
    intros G1 _ [x Hx] _; congruence. }
  done.
Qed.

Lemma GetOrCreateSchema_evolves (c : Cluster) (name : string) (w : World) :
  evolves w (ClusterImpl.GetOrCreateSchema c name w).2.
Proof.
  unfold ClusterImpl.GetOrCreateSchema.
  destruct (object_of w c) as [pb|]; [|apply quiet_evolves, quiet_refl].
  destruct (t_schemas (topology_of w (pb_Id pb)) !! name) as [s|] eqn:Hs;
    [apply quiet_evolves, quiet_refl|].
  cbv zeta.
  destruct (Alloc_cases AllocSchemaIDPrefix w) as (Ht & Ho & [[[e He] Hc] | [He Hc]]);
    rewrite He; cbn [fst snd].
  { apply grow_evolves; try done; unfold counter; by rewrite Hc. }
  set (w1 := (Allocator.Alloc AllocSchemaIDPrefix w).2) in *.
  assert (HcS : counter w1 AllocSchemaIDPrefix = counter w AllocSchemaIDPrefix + 1).
  { rewrite (counter_insert _ AllocSchemaIDPrefix _ _ _ Hc). by rewrite decide_True. }
  assert (HcT : counter w1 AllocTableIDPrefix = counter w AllocTableIDPrefix).
  { rewrite (counter_insert _ AllocTableIDPrefix _ _ _ Hc). by rewrite decide_False. }
  assert (HS2 : counter (store_access w1).2 AllocSchemaIDPrefix
                = counter w AllocSchemaIDPrefix + 1).
  { unfold counter in *. by rewrite store_access_counters. }
  assert (HT2 : counter (store_access w1).2 AllocTableIDPrefix
                = counter w AllocTableIDPrefix).
  { unfold counter in *. by rewrite store_access_counters. }
  destruct (store_access w1).1; simpl.
  - apply insert_schema_evolves; try done.
    + by rewrite store_access_topologies.
    + by rewrite store_access_objects.
    + simpl. lia.
  - apply grow_evolves.
    + by rewrite store_access_topologies.
    + by rewrite store_access_objects.
    + lia.
    + lia.
Qed.

Lemma GetOrCreateTable_evolves (c : Cluster) (node sch tbl : string) (w : World) :
  evolves w (ClusterImpl.GetOrCreateTable c node sch tbl w).2.
Proof.
  unfold ClusterImpl.GetOrCreateTable.
  destruct (object_of w c) as [pb|]; [|apply quiet_evolves, quiet_refl].
  destruct (t_schemas (topology_of w (pb_Id pb)) !! sch) as [s|];
    [|apply quiet_evolves, quiet_refl].
  destruct (t_tables (topology_of w (pb_Id pb)) !! (sch, tbl)) as [e0|] eqn:Hk;
    [apply quiet_evolves, quiet_refl|].
  cbv zeta.
  destruct (Alloc_cases AllocTableIDPrefix w) as (Ht & Ho & [[[e He] Hc] | [He Hc]]);
    rewrite He; cbn [fst snd].
  { apply grow_evolves; try done; unfold counter; by rewrite Hc. }
  set (w1 := (Allocator.Alloc AllocTableIDPrefix w).2) in *.
  assert (HcS : counter w1 AllocSchemaIDPrefix = counter w AllocSchemaIDPrefix).
  { rewrite (counter_insert _ AllocSchemaIDPrefix _ _ _ Hc). by rewrite decide_False. }
  assert (HcT : counter w1 AllocTableIDPrefix = counter w AllocTableIDPrefix + 1).
  { rewrite (counter_insert _ AllocTableIDPrefix _ _ _ Hc). by rewrite decide_True. }
  assert (HS2 : counter (store_access w1).2 AllocSchemaIDPrefix
                = counter w AllocSchemaIDPrefix).
  { unfold counter in *. by rewrite store_access_counters. }
  assert (HT2 : counter (store_access w1).2 AllocTableIDPrefix
                = counter w AllocTableIDPrefix + 1).
  { unfold counter in *. by rewrite store_access_counters. }
  destruct (store_access w1).1; cbn [fst snd].
  - apply put_tables_evolves.
    + by rewrite store_access_topologies.
    + by rewrite store_access_objects.
    + done.
    + lia.
    + intros k e e' Hold. destruct (decide ((sch, tbl) = k)) as [<-|?]; [congruence|].
      rewrite lookup_insert_ne by done. congruence.
    + intros k e Hold. destruct (decide ((sch, tbl) = k)) as [<-|?].
      * rewrite lookup_insert_eq. intros [= <-]. unfold table_id. simpl. lia.
      * rewrite lookup_insert_ne by done. congruence.
    + intros k1 k2 G1 G2 [x1 Hx1] [x2 Hx2].
      destruct (decide ((sch, tbl) = k1)) as [<-|?];
        [|rewrite lookup_insert_ne in Hx1; congruence].
      destruct (decide ((sch, tbl) = k2)) as [<-|?]; [done|].
      rewrite lookup_insert_ne in Hx2; congruence.
  - apply grow_evolves.
    + by rewrite store_access_topologies.
    + by rewrite store_access_objects.
    + lia.
    + lia.
Qed.

Lemma DropTable_evolves (c : Cluster) (sch tbl : string) (id : Z) (w : World) :
  evolves w (ClusterImpl.DropTable c sch tbl id w).2.
Proof.
  unfold ClusterImpl.DropTable.
  destruct (object_of w c) as [pb|]; [|apply quiet_evolves, quiet_refl].
  destruct (t_tables (topology_of w (pb_Id pb)) !! (sch, tbl)) as [e0|] eqn:Hk;
    [|apply quiet_evolves, quiet_refl].
  destruct (bool_decide _); [|apply quiet_evolves, quiet_refl].
  cbv zeta.
  destruct (store_access w).1 eqn:E; cbn [fst snd];
    [|apply quiet_evolves, store_access_quiet].
  destruct (store_access_quiet w) as (_ & _ & QS & QT & _).
  apply put_tables_evolves.
  - apply store_access_topologies.
  - apply store_access_objects.
  - done.
  - lia.
  - intros k e e' Hold. destruct (decide ((sch, tbl) = k)) as [<-|?].
    + by rewrite lookup_delete_eq.
    + rewrite lookup_delete_ne by done. congruence.
  - intros k e Hold. destruct (decide ((sch, tbl) = k)) as [<-|?].
    + by rewrite lookup_delete_eq.
    + rewrite lookup_delete_ne by done. congruence.
  - intros k1 k2 G1 _ [x1 Hx1] _. destruct (decide ((sch, tbl) = k1)) as [<-|?].
    + by rewrite lookup_delete_eq in Hx1.
    + rewrite lookup_delete_ne in Hx1 by done. congruence.
Qed.

(** Every call to the collaborators is a step of the kind [evolves] allows. *)
Lemma handle_evolves (c : Call) (w : World) : evolves w (handle c w).2.
Proof.
  destruct c; simpl.
  - apply quiet_evolves, Alloc_cluster_id_quiet.
  - apply quiet_evolves, CreateCluster_quiet.
  - apply quiet_evolves, NewCluster_quiet.
  - apply quiet_evolves, init_quiet.
  - apply quiet_evolves, Load_quiet.
  - apply GetOrCreateSchema_evolves.
  - apply GetOrCreateTable_evolves.
  - apply quiet_evolves, GetTables_quiet.
  - apply DropTable_evolves.
  - apply quiet_evolves, RegisterNode_quiet.
  - apply quiet_evolves, scatterShard_quiet.
  - apply quiet_evolves, GetShardIDs_quiet.
Qed.






(** *** Consequences for the ids *)

Lemma evolves_consistent (w w' : World) : consistent w → evolves w w' → consistent w'.
Proof.
  intros (BS & DS & BT & DT) (E1 & E1' & E2 & E3 & E4 & T2 & T3 & T4 & _).
  split; [|split; [|split]].
  - intros cid n s Hs. destruct (schemas_of w cid !! n) as [s0|] eqn:H0.
    + rewrite (E2 _ _ _ H0) in Hs. injection Hs as <-. specialize (BS _ _ _ H0). lia.
    + apply (E3 _ _ _ H0 Hs).
  - intros cid n1 n2 s1 s2 H1 H2 Hid.
    destruct (schemas_of w cid !! n1) as [a|] eqn:G1;
      destruct (schemas_of w cid !! n2) as [b|] eqn:G2.
    + rewrite (E2 _ _ _ G1) in H1. rewrite (E2 _ _ _ G2) in H2.
      injection H1 as <-. injection H2 as <-. by apply (DS cid n1 n2 a b).
    + rewrite (E2 _ _ _ G1) in H1. injection H1 as <-.
      specialize (BS _ _ _ G1). specialize (E3 _ _ _ G2 H2). lia.
    + rewrite (E2 _ _ _ G2) in H2. injection H2 as <-.
      specialize (BS _ _ _ G2). specialize (E3 _ _ _ G1 H1). lia.
    + by apply (E4 cid n1 n2).
  - intros cid k e He. destruct (tables_of w cid !! k) as [e0|] eqn:H0.
    + rewrite (T2 _ _ _ _ H0 He). specialize (BT _ _ _ H0). lia.
    + apply (T3 _ _ _ H0 He).
  - intros cid k1 k2 e1 e2 H1 H2 Hid.
    destruct (tables_of w cid !! k1) as [a|] eqn:G1;
      destruct (tables_of w cid !! k2) as [b|] eqn:G2.
    + rewrite (T2 _ _ _ _ G1 H1), (T2 _ _ _ _ G2 H2) in Hid. by apply (DT cid k1 k2 a b).
    + rewrite (T2 _ _ _ _ G1 H1) in Hid.
      specialize (BT _ _ _ G1). specialize (T3 _ _ _ G2 H2). lia.
    + rewrite (T2 _ _ _ _ G2 H2) in Hid.
      specialize (BT _ _ _ G2). specialize (T3 _ _ _ G1 H1). lia.
    + by apply (T4 cid k1 k2).
Qed.





Lemma later_by_any (allowed : Call → bool) (w w' : World) :
  later_by allowed w w' → later_by any_call w w'.
Proof.
  unfold later_by. apply rtc_subrel. intros x y (c & _ & ->). by exists c.
Qed.

(** The state a run of the manager leaves is a later state. *)
Lemma run_later {A} (p : Prog A) (w : World) : later_by any_call w (run p w).1.2.
Proof.
  revert w. induction p as [a | msg k IH | c k IH]; intros w; simpl.
  - apply rtc_refl.
  - apply IH.
  - eapply rtc_l; [|apply IH]. by exists c.
Qed.





(** In a later state, a schema whose id had been handed out before is a
    schema that was there before, under the same name. *)
Lemma later_old_schemas (allowed : Call → bool) (w w' : World) (cid : Z) (n : string)
    (s : SchemaPb) :
  later_by allowed w w' → consistent w →
  schemas_of w' cid !! n = Some s →
  schema_GetId s ≤ counter w AllocSchemaIDPrefix →
  schemas_of w cid !! n = Some s.
Proof.
  induction 1 as [w | w w1 w2 (c & _ & ->) Hl IH]; [done|].
  intros Hw Hs Hid.
  destruct (handle_evolves c w) as (E1 & _ & E2 & E3 & _).
  assert (H1 : schemas_of (handle c w).2 cid !! n = Some s).
  { apply IH; [|done|lia]. eapply evolves_consistent; [done|apply handle_evolves]. }
  destruct (schemas_of w cid !! n) as [s0|] eqn:H0.
  - rewrite (E2 _ _ _ H0) in H1. congruence.
  - specialize (E3 _ _ _ H0 H1). lia.
Qed.


(** *** Get-or-create on a cluster *)





#[local] Arguments ClusterImpl.GetOrCreateSchema : simpl never.
#[local] Arguments ClusterImpl.GetOrCreateTable : simpl never.




End MetaIds.

(** ** The theorems at work on the scenario *)

Section ScenarioFacts.
Import Scenario.

Lemma CreateCluster_twice_scenario :
  run (CreateCluster m0 "db1" 3 2 4) Meta.empty_world
    = (inr (ClusterRef 0), m1, w1, created.2)
  ∧ 1 ≤ 3
  ∧ (run (CreateCluster m1 "db1" 3 2 4) w1).1.1.1 = inl ErrClusterAlreadyExists
  ∧ length (records_named "db1" (run (CreateCluster m1 "db1" 3 2 4) w1).1.2) = 1%nat.
Proof.
  assert (H : run (CreateCluster m0 "db1" 3 2 4) Meta.empty_world
              = (inr (ClusterRef 0), m1, w1, created.2)) by (vm_compute; reflexivity).
  assert (Hn : 1 ≤ 3) by lia.
  destruct (CreateCluster_twice m0 m1 Meta.empty_world w1 "db1" 3 2 4 3 2 4
              (ClusterRef 0) created.2 H Hn) as (A & _ & B & _).
  exact (conj H (conj Hn (conj A B))).
Defined.

Lemma CreateCluster_success_sequence_scenario :
  run (CreateCluster m0 "db1" 3 2 4) Meta.empty_world
    = (inr (ClusterRef 0), m1, w1, created.2)
  ∧ ∃ (ID : Z) (persisted : ClusterPb),
      created.2 = [EvCall alloc_Alloc;
                   EvCall (storage_CreateCluster (mkClusterPb (uint32 ID) "db1" 3 2 4));
                   EvCall (NewCluster persisted);
                   EvCall (cluster_init (ClusterRef 0));
                   EvCall (cluster_Load (ClusterRef 0))]
      ∧ m1 = mkManager (<["db1" := ClusterRef 0]> (clusters m0)).
Proof.
  assert (H : run (CreateCluster m0 "db1" 3 2 4) Meta.empty_world
              = (inr (ClusterRef 0), m1, w1, created.2)) by (vm_compute; reflexivity).
  split; [exact H|].
  destruct (CreateCluster_success_sequence m0 m1 Meta.empty_world w1 "db1" 3 2 4
              (ClusterRef 0) created.2 H)
    as (ID & persisted & _ & _ & _ & _ & _ & _ & _ & _ & _ & Ht & Hm & _).
  exists ID, persisted. exact (conj Ht Hm).
Defined.

Lemma CreateCluster_partial_failure_scenario :
  1 ≤ 3
  ∧ clusters m0 !! "db1" = None
  ∧ handle alloc_Alloc w_fail = (inr 1, wa)
  ∧ handle (storage_CreateCluster (mkClusterPb (uint32 1) "db1" 3 2 4)) wa = (inr pb1, wb)
  ∧ handle (NewCluster pb1) wb = (ClusterRef 0, wc)
  ∧ handle (cluster_init (ClusterRef 0)) wc = (Some Meta.ErrStorage, wd)
  ∧ (run (CreateCluster m0 "db1" 3 2 4) w_fail).1.1
    = (inl (Wrapf Meta.ErrStorage "clusters manager CreateCluster, clusterName:%s"
              [ArgS "db1"]), m0)
  ∧ records_named "db1" (run (CreateCluster m0 "db1" 3 2 4) w_fail).1.2 = [pb1].
Proof.
  assert (Hn : 1 ≤ 3) by lia.
  assert (Hc : clusters m0 !! "db1" = None) by reflexivity.
  assert (H1 : handle alloc_Alloc w_fail = (inr 1, wa)) by (vm_compute; reflexivity).
  assert (H2 : handle (storage_CreateCluster (mkClusterPb (uint32 1) "db1" 3 2 4)) wa
               = (inr pb1, wb)) by (vm_compute; reflexivity).
  assert (H3 : handle (NewCluster pb1) wb = (ClusterRef 0, wc)) by (vm_compute; reflexivity).
  assert (H4 : handle (cluster_init (ClusterRef 0)) wc = (Some Meta.ErrStorage, wd))
    by (vm_compute; reflexivity).
  destruct (CreateCluster_partial_failure m0 w_fail wa wb wc wd "db1" 3 2 4 1 pb1
              (ClusterRef 0) Meta.ErrStorage Hn Hc H1 H2 H3 (or_introl H4)) as (A & _ & _).
  repeat (split; [assumption|]).
  vm_compute; reflexivity.
Defined.

Lemma unknown_cluster_not_found_scenario :
  clusters m0 !! "db9" = None
  ∧ (let r := run (GetShards m0 "db9" "node-1") Meta.empty_world in
     fails_not_found Meta.empty_world (failure r.1.1) r.1.2 r.2)
  ∧ (let r := run (RegisterNode m0 "db9" "node-1" 30) Meta.empty_world in
     fails_not_found Meta.empty_world r.1.1 r.1.2 r.2).
Proof.
  assert (Hc : clusters m0 !! "db9" = None) by reflexivity.
  destruct (unknown_cluster_not_found m0 Meta.empty_world "db9" "node-1" "public" "t1"
              [0; 1] 1 30 Hc) as (A & _ & _ & B & _).
  exact (conj Hc (conj A B)).
Defined.

Lemma CreateCluster_exists_frame_scenario :
  1 ≤ 3
  ∧ clusters m1 !! "db1" = Some (ClusterRef 0)
  ∧ run (CreateCluster m1 "db1" 3 2 4) w2
    = (inl ErrClusterAlreadyExists, m1, w2, [EvLog "cluster already exists"]).
Proof.
  assert (Hn : 1 ≤ 3) by lia.
  assert (Hc : clusters m1 !! "db1" = Some (ClusterRef 0)) by (vm_compute; reflexivity).
  destruct (CreateCluster_exists_frame m1 w2 "db1" 3 2 4 (ClusterRef 0) Hn Hc) as (A & _).
  exact (conj Hn (conj Hc A)).
Defined.

Lemma RegisterNode_then_scatter_scenario :
  clusters m1 !! "db1" = Some (ClusterRef 0)
  ∧ registered1.1.1 = None
  ∧ registered1.2 = [EvCall (cluster_RegisterNode (ClusterRef 0) "node-1" 30);
                     EvCall (coordinator_scatterShard (ClusterRef 0))]
  ∧ (run (GetShards m1 "db1" "node-1") registered1.1.2).2
    = [EvCall (cluster_GetShardIDs (ClusterRef 0) "node-1")]
  ∧ (run (GetShards m1 "db1" "node-1") registered1.1.2).1.1 = inr [3; 2; 1; 0].
Proof.
  assert (Hc : clusters m1 !! "db1" = Some (ClusterRef 0)) by (vm_compute; reflexivity).
  assert (Hr : registered1.1.1 = None) by (vm_compute; reflexivity).
  destruct (RegisterNode_then_scatter m1 wT "db1" "node-1" 30 (ClusterRef 0) Hc) as (_ & B).
  destruct (B Hr) as (_ & _ & _ & G & _).
  destruct (G "node-1") as (G1 & _ & G3).
  split; [exact Hc|]. split; [exact Hr|]. split; [vm_compute; reflexivity|].
  split; [exact G1|]. apply G3. vm_compute; reflexivity.
Defined.

Lemma GetTables_projects_view_scenario :
  clusters m1 !! "db1" = Some (ClusterRef 0)
  ∧ handle (cluster_GetTables (ClusterRef 0) [0; 3; 7] "node-1") w2
    = (inr (the_view (cluster_GetTables (ClusterRef 0) [0; 3; 7] "node-1") w2), w2)
  ∧ ∃ ret : gmap Z ShardTables,
      run (GetTables m1 "db1" "node-1" [0; 3; 7]) w2
        = (inr ret, w2, [EvCall (cluster_GetTables (ClusterRef 0) [0; 3; 7] "node-1")])
      ∧ ∃ st, ret !! 3 = Some st
              ∧ Tables st !! 0%nat = Some (mkTableInfo 1 "t1" 1 "public").
Proof.
  assert (Hc : clusters m1 !! "db1" = Some (ClusterRef 0)) by (vm_compute; reflexivity).
  assert (Hv : handle (cluster_GetTables (ClusterRef 0) [0; 3; 7] "node-1") w2
               = (inr (the_view (cluster_GetTables (ClusterRef 0) [0; 3; 7] "node-1") w2), w2))
    by (vm_compute; reflexivity).
  destruct (GetTables_projects_view m1 w2 w2 "db1" "node-1" [0; 3; 7] (ClusterRef 0) _ Hc Hv)
    as (ret & Hrun & Hret).
  split; [exact Hc|]. split; [exact Hv|].
  exists ret. split; [exact Hrun|].
  destruct (Hret 3
              (mkShardTablesWithRole ShardRole_LEADER
                 [mkTable (mkSchemaPb 1 "public") (mkTablePb 1 "t1")] 3))
    as (st & Hst & _ & _ & _ & Htab); [vm_compute; reflexivity|].
  exists st. split; [exact Hst|].
  apply (Htab 0%nat (mkTable (mkSchemaPb 1 "public") (mkTablePb 1 "t1"))). reflexivity.
Defined.

Lemma GetTables_keys_of_view_scenario :
  clusters m1 !! "db1" = Some (ClusterRef 0)
  ∧ handle (cluster_GetTables (ClusterRef 0) [0; 3; 7] "node-1") w2
    = (inr (the_view (cluster_GetTables (ClusterRef 0) [0; 3; 7] "node-1") w2), w2)
  ∧ ∃ ret : gmap Z ShardTables,
      (run (GetTables m1 "db1" "node-1" [0; 3; 7]) w2).1.1 = inr ret
      ∧ ret !! 7 = None.
Proof.
  assert (Hc : clusters m1 !! "db1" = Some (ClusterRef 0)) by (vm_compute; reflexivity).
  assert (Hv : handle (cluster_GetTables (ClusterRef 0) [0; 3; 7] "node-1") w2
               = (inr (the_view (cluster_GetTables (ClusterRef 0) [0; 3; 7] "node-1") w2), w2))
    by (vm_compute; reflexivity).
  destruct (GetTables_keys_of_view m1 w2 w2 "db1" "node-1" [0; 3; 7] (ClusterRef 0) _ Hc Hv)
    as (ret & Hrun & _ & Hmiss & _).
  split; [exact Hc|]. split; [exact Hv|].
  exists ret. split; [exact Hrun|].
  apply Hmiss; [|vm_compute; reflexivity].
  apply list_elem_of_In. right. right. left. reflexivity.
Defined.


End ScenarioFacts.

(** ** More on the manager over any collaborators *)

Section CreateClusterPaths.
Context {W : Type} `{!Backend W}.

(** The seven ways through [CreateCluster]: the two guards, then a failure of
    one of the five calls or none. *)
Ltac create_paths m w clusterName n :=
  unfold CreateCluster, allocClusterID;
  destruct (Z.ltb_spec n 1) as [Hlt|Hge];
  [ simpl
  | destruct (clusters m !! clusterName) as [cR|] eqn:Hreg;
    [ simpl
    | simpl;
      destruct (handle alloc_Alloc w) as [[eA|idA] wA] eqn:HA; simpl;
      [ | destruct (handle (storage_CreateCluster _) wA) as [[eS|pbS] wS] eqn:HS; simpl;
          [ | destruct (handle (NewCluster pbS) wS) as [cN wN] eqn:HN; simpl;
              destruct (handle (cluster_init cN) wN) as [[eI|] wI] eqn:HI; simpl;
              [ | destruct (handle (cluster_Load cN) wI) as [[eL|] wL] eqn:HL; simpl ] ] ] ] ].

Lemma CreateCluster_registry (m : managerImpl) (w : W) (clusterName : string)
    (n rf st : Z) :
  let r := run (CreateCluster m clusterName n rf st) w in
  match r.1.1.1 with
  | inl _ => r.1.1.2 = m
  | inr cluster =>
      clusters m !! clusterName = None
      ∧ r.1.1.2 = mkManager (<[clusterName := cluster]> (clusters m))
  end.
Proof. cbv zeta. create_paths m w clusterName n; done. Qed.

(** X1: [CreateCluster] changes the registry only when it succeeds, and then
    by binding the name, which was free, to the cluster it returns; whenever
    it returns an error, whatever the cause, the registry is as it was. *)
Theorem CreateCluster_registry_change (m : managerImpl) (w : W) (clusterName : string)
    (initialNodeCount replicationFactor shardTotal : Z) :
  let r := run (CreateCluster m clusterName initialNodeCount replicationFactor shardTotal) w in
  match r.1.1.1 with
  | inl _ => r.1.1.2 = m
  | inr cluster =>
      clusters m !! clusterName = None
      ∧ r.1.1.2 = mkManager (<[clusterName := cluster]> (clusters m))
  end.
Proof. apply CreateCluster_registry. Qed.

(** X2: the calls of a run of [CreateCluster] are always an initial part of
    the sequence allocate, persist, construct, initialise, load: the storage
    is never written before an id is allocated, no cluster is constructed
    before its record is persisted, and each call is made at most once. *)
Theorem CreateCluster_calls_prefix (m : managerImpl) (w : W) (clusterName : string)
    (initialNodeCount replicationFactor shardTotal : Z) :
  ∃ (ID : Z) (persisted : ClusterPb) (cluster : Cluster),
    calls (run (CreateCluster m clusterName initialNodeCount replicationFactor shardTotal) w).2
    `prefix_of`
    [alloc_Alloc;
     storage_CreateCluster {| pb_Id := uint32 ID;
                              pb_Name := clusterName;
                              pb_MinNodeCount := initialNodeCount;
                              pb_ReplicationFactor := replicationFactor;
                              pb_ShardTotal := shardTotal |};
     NewCluster persisted;
     cluster_init cluster;
     cluster_Load cluster].
Proof.
  pose (pb0 := mkClusterPb 0 "" 0 0 0). pose (cl0 := ClusterRef 0).
  create_paths m w clusterName initialNodeCount.
  - exists 0, pb0, cl0. apply prefix_nil.
  - exists 0, pb0, cl0. apply prefix_nil.
  - exists 0, pb0, cl0. by eexists.
  - exists idA, pb0, cl0. by eexists.
  - exists idA, pbS, cN. by eexists.
  - exists idA, pbS, cN. by eexists.
  - exists idA, pbS, cN. by eexists.
Qed.

(** X3: when the allocation of the cluster id fails, [CreateCluster] returns
    that failure wrapped (its root cause and kind are kept), the allocator is
    the only collaborator called, so nothing is persisted, and the registry
    is unchanged. *)
Theorem CreateCluster_alloc_failure (m : managerImpl) (w w1 : W) (clusterName : string)
    (initialNodeCount replicationFactor shardTotal : Z) (e : error) :
  1 ≤ initialNodeCount →
  clusters m !! clusterName = None →
  handle alloc_Alloc w = (inl e, w1) →
  let r := run (CreateCluster m clusterName initialNodeCount replicationFactor shardTotal) w in
  (∃ e', r.1.1 = (inl e', m) ∧ Cause e' = Cause e ∧ errKind e' = errKind e)
  ∧ r.1.2 = w1
  ∧ calls r.2 = [alloc_Alloc].
Proof.
  intros Hn Hfree Ha. cbv zeta.
  create_paths m w clusterName initialNodeCount; try lia; try congruence.
  injection Ha as <- <-. split; [|done]. by eexists.
Qed.

(** X4: when the storage refuses the record, [CreateCluster] returns that
    failure wrapped (its root cause and kind are kept); the id has been
    allocated, but no cluster object is constructed, initialised or loaded,
    and the registry is unchanged. *)
Theorem CreateCluster_storage_failure (m : managerImpl) (w w1 w2 : W) (clusterName : string)
    (initialNodeCount replicationFactor shardTotal ID : Z) (e : error) :
  1 ≤ initialNodeCount →
  clusters m !! clusterName = None →
  handle alloc_Alloc w = (inr ID, w1) →
  handle (storage_CreateCluster
            {| pb_Id := uint32 ID;
               pb_Name := clusterName;
               pb_MinNodeCount := initialNodeCount;
               pb_ReplicationFactor := replicationFactor;
               pb_ShardTotal := shardTotal |}) w1 = (inl e, w2) →
  let r := run (CreateCluster m clusterName initialNodeCount replicationFactor shardTotal) w in
  (∃ e', r.1.1 = (inl e', m) ∧ Cause e' = Cause e ∧ errKind e' = errKind e)
  ∧ r.1.2 = w2
  ∧ calls r.2
    = [alloc_Alloc;
       storage_CreateCluster {| pb_Id := uint32 ID;
                                pb_Name := clusterName;
                                pb_MinNodeCount := initialNodeCount;
                                pb_ReplicationFactor := replicationFactor;
                                pb_ShardTotal := shardTotal |}].
Proof.
  intros Hn Hfree Ha Hs. cbv zeta.
  create_paths m w clusterName initialNodeCount; try lia; try congruence.
  - injection Ha as <- <-. rewrite Hs in HS. injection HS as <- <-.
    split; [|done]. by eexists.
  - injection Ha as <- <-. congruence.
  - injection Ha as <- <-. congruence.
  - injection Ha as <- <-. congruence.
Qed.

(** X5: after a successful [CreateCluster] the registry resolves the name to
    the cluster that was returned, and resolves every other name as before. *)
Theorem CreateCluster_then_lookup (m m' : managerImpl) (w w' : W) (clusterName : string)
    (initialNodeCount replicationFactor shardTotal : Z) (cluster : Cluster)
    (t : list Event) :
  run (CreateCluster m clusterName initialNodeCount replicationFactor shardTotal) w
    = (inr cluster, m', w', t) →
  getCluster m' clusterName = inr cluster
  ∧ ∀ other, other ≠ clusterName → getCluster m' other = getCluster m other.
Proof.
  intros Hrun.
  pose proof (CreateCluster_registry m w clusterName initialNodeCount replicationFactor
                shardTotal) as Hreg.
  cbv zeta in Hreg. rewrite Hrun in Hreg. simpl in Hreg. destruct Hreg as [_ ->].
  unfold getCluster. simpl. split.
  - by rewrite lookup_insert_eq.
  - intros other Hne. by rewrite lookup_insert_ne.
Qed.

(** X6: on a name that is registered, [CreateCluster] never succeeds,
    whatever its other arguments: it fails with a validation error or an
    already-exists error, calls no collaborator and leaves the state and the
    registry as they were. *)
Theorem CreateCluster_registered_never_succeeds (m : managerImpl) (w : W)
    (clusterName : string) (initialNodeCount replicationFactor shardTotal : Z)
    (c : Cluster) :
  clusters m !! clusterName = Some c →
  let r := run (CreateCluster m clusterName initialNodeCount replicationFactor shardTotal) w in
  (∃ e, r.1.1 = (inl e, m)
        ∧ (errKind e = ValidationError ∨ errKind e = AlreadyExistsError))
  ∧ r.1.2 = w
  ∧ calls r.2 = [].
Proof.
  intros Hc. cbv zeta.
  create_paths m w clusterName initialNodeCount; try congruence.
  - split; [|done]. eexists. split; [done|]. by left.
  - split; [|done]. eexists. split; [done|]. by right.
Qed.

(** X7: every record [CreateCluster] hands to the storage has a cluster id
    that fits in 32 bits, the requested name, replication factor and shard
    total, and the requested node count, which is at least one. *)
Theorem CreateCluster_persists_valid_record (m : managerImpl) (w : W) (clusterName : string)
    (initialNodeCount replicationFactor shardTotal : Z) (pb : ClusterPb) :
  storage_CreateCluster pb
    ∈ calls (run (CreateCluster m clusterName initialNodeCount replicationFactor shardTotal)
               w).2 →
  0 ≤ pb_Id pb < 2 ^ 32
  ∧ pb_Name pb = clusterName
  ∧ pb_MinNodeCount pb = initialNodeCount
  ∧ 1 ≤ initialNodeCount
  ∧ pb_ReplicationFactor pb = replicationFactor
  ∧ pb_ShardTotal pb = shardTotal.
Proof.
  assert (Hin : ∀ ID l,
            (∀ x, x ∈ l → ∀ p, x ≠ storage_CreateCluster p) →
            1 ≤ initialNodeCount →
            storage_CreateCluster pb
              ∈ alloc_Alloc
                :: storage_CreateCluster
                     {| pb_Id := uint32 ID; pb_Name := clusterName;
                        pb_MinNodeCount := initialNodeCount;
                        pb_ReplicationFactor := replicationFactor;
                        pb_ShardTotal := shardTotal |} :: l →
            0 ≤ pb_Id pb < 2 ^ 32 ∧ pb_Name pb = clusterName
            ∧ pb_MinNodeCount pb = initialNodeCount ∧ 1 ≤ initialNodeCount
            ∧ pb_ReplicationFactor pb = replicationFactor
            ∧ pb_ShardTotal pb = shardTotal).
  { intros ID l Hl Hn Hx.
    apply elem_of_cons in Hx as [Hx|Hx]; [discriminate|].
    apply elem_of_cons in Hx as [Hx|Hx]; [|by destruct (Hl _ Hx pb)].
    injection Hx as ->. simpl. repeat split; try done; unfold uint32.
    - apply Z.mod_pos_bound. lia.
    - apply Z.mod_pos_bound. lia. }
  create_paths m w clusterName initialNodeCount; intros Hx.
  - by apply elem_of_nil in Hx.
  - by apply elem_of_nil in Hx.
  - apply elem_of_cons in Hx as [Hx|Hx]; [discriminate|]. by apply elem_of_nil in Hx.
  - apply (Hin idA []); [|done|done]. intros x Hx'. by apply elem_of_nil in Hx'.
  - apply (Hin idA [NewCluster pbS; cluster_init cN]); [|done|done].
    intros x Hx' p ->.
    repeat (apply elem_of_cons in Hx' as [Hx'|Hx']; [discriminate|]).
    by apply elem_of_nil in Hx'.
  - apply (Hin idA [NewCluster pbS; cluster_init cN; cluster_Load cN]); [|done|done].
    intros x Hx' p ->.
    repeat (apply elem_of_cons in Hx' as [Hx'|Hx']; [discriminate|]).
    by apply elem_of_nil in Hx'.
  - apply (Hin idA [NewCluster pbS; cluster_init cN; cluster_Load cN]); [|done|done].
    intros x Hx' p ->.
    repeat (apply elem_of_cons in Hx' as [Hx'|Hx']; [discriminate|]).
    by apply elem_of_nil in Hx'.
Qed.

(** X9: [CreateCluster] writes exactly one line to the error log when it
    returns an error, and none when it succeeds. *)
Theorem CreateCluster_logs_once (m : managerImpl) (w : W) (clusterName : string)
    (initialNodeCount replicationFactor shardTotal : Z) :
  let r := run (CreateCluster m clusterName initialNodeCount replicationFactor shardTotal) w in
  length (log_lines r.2) = match r.1.1.1 with inl _ => 1%nat | inr _ => 0%nat end.
Proof. cbv zeta. create_paths m w clusterName initialNodeCount; done. Qed.

End CreateClusterPaths.

Section Delegation.
Context {W : Type} `{!Backend W}.

(** X8: the cluster id is the allocated id converted to 32 bits: it is the
    allocated id modulo 2^32, hence the allocated id itself when that fits,
    and two allocated ids that differ by a multiple of 2^32 give the same
    cluster id. *)
Theorem allocClusterID_wraps (w w' w1 w1' : W) (ID k : Z) :
  handle alloc_Alloc w = (inr ID, w1) →
  handle alloc_Alloc w' = (inr (ID + k * 2 ^ 32), w1') →
  (run allocClusterID w).1.1 = inr (ID `mod` 2 ^ 32)
  ∧ (run allocClusterID w').1.1 = (run allocClusterID w).1.1
  ∧ (0 ≤ ID < 2 ^ 32 → (run allocClusterID w).1.1 = inr ID).
Proof.
  intros H1 H2. unfold allocClusterID. simpl. rewrite H1, H2. simpl. unfold uint32.
  split; [done|]. split.
  - by rewrite Z.mod_add.
  - intros Hr. by rewrite Z.mod_small.
Qed.

(** X10: an operation on a registered cluster calls that cluster and nothing
    else: not the allocator, not the storage, no other cluster.  [GetShards],
    [GetTables], [DropTable], [AllocSchemaID] and [AllocTableID] make one
    call; [RegisterNode] makes one or two. *)
Theorem delegation_targets_cluster (m : managerImpl) (w : W) (clusterName : string)
    (nodeName schemaName tableName : string) (shardIDs : list Z) (tableID lease : Z)
    (cluster : Cluster) :
  clusters m !! clusterName = Some cluster →
  let on_cluster (t : list Event) := Forall (λ c, target c = Some cluster) (calls t) in
  (let t := (run (GetShards m clusterName nodeName) w).2 in
   on_cluster t ∧ length (calls t) = 1%nat)
  ∧ (let t := (run (GetTables m clusterName nodeName shardIDs) w).2 in
     on_cluster t ∧ length (calls t) = 1%nat)
  ∧ (let t := (run (DropTable m clusterName schemaName tableName tableID) w).2 in
     on_cluster t ∧ length (calls t) = 1%nat)
  ∧ (let t := (run (AllocSchemaID m clusterName schemaName) w).2 in
     on_cluster t ∧ length (calls t) = 1%nat)
  ∧ (let t := (run (AllocTableID m clusterName schemaName tableName nodeName) w).2 in
     on_cluster t ∧ length (calls t) = 1%nat)
  ∧ (let t := (run (RegisterNode m clusterName nodeName lease) w).2 in
     on_cluster t ∧ (1 ≤ length (calls t) ≤ 2)%nat).
Proof.
  intros Hc. cbv zeta.
  unfold GetShards, GetTables, DropTable, AllocSchemaID, AllocTableID, RegisterNode,
    getCluster.
  rewrite Hc. simpl.
  split; [|split; [|split; [|split; [|split]]]].
  - destruct (handle (cluster_GetShardIDs cluster nodeName) w) as [[e|x] w1]; simpl;
      (split; [by repeat constructor|done]).
  - destruct (handle (cluster_GetTables cluster shardIDs nodeName) w) as [[e|x] w1]; simpl;
      (split; [by repeat constructor|done]).
  - destruct (handle (cluster_DropTable cluster schemaName tableName tableID) w)
      as [[e|] w1]; simpl; (split; [by repeat constructor|done]).
  - destruct (handle (cluster_GetOrCreateSchema cluster schemaName) w) as [[e|x] w1]; simpl;
      (split; [by repeat constructor|done]).
  - destruct (handle (cluster_GetOrCreateTable cluster nodeName schemaName tableName) w)
      as [[e|x] w1]; simpl; (split; [by repeat constructor|done]).
  - destruct (handle (cluster_RegisterNode cluster nodeName lease) w) as [[e|] w1]; simpl.
    { split; [by repeat constructor|lia]. }
    destruct (handle (coordinator_scatterShard cluster) w1) as [[e|] w2]; simpl;
      (split; [by repeat constructor|lia]).
Qed.

(** X11: an operation on a registered cluster fails exactly when the call it
    delegates to fails, and the error it returns has the root cause, hence
    the kind, of the error the cluster returned.  [RegisterNode] fails with
    the cause of the registration's failure or, when the registration went
    through, of the scatter's. *)
Theorem delegation_keeps_cause (m : managerImpl) (w : W) (clusterName : string)
    (nodeName schemaName tableName : string) (shardIDs : list Z) (tableID lease : Z)
    (cluster : Cluster) :
  clusters m !! clusterName = Some cluster →
  Cause <$> failure (run (GetShards m clusterName nodeName) w).1.1
    = Cause <$> failure (handle (cluster_GetShardIDs cluster nodeName) w).1
  ∧ Cause <$> failure (run (GetTables m clusterName nodeName shardIDs) w).1.1
    = Cause <$> failure (handle (cluster_GetTables cluster shardIDs nodeName) w).1
  ∧ Cause <$> (run (DropTable m clusterName schemaName tableName tableID) w).1.1
    = Cause <$> (handle (cluster_DropTable cluster schemaName tableName tableID) w).1
  ∧ Cause <$> failure (run (AllocSchemaID m clusterName schemaName) w).1.1
    = Cause <$> failure (handle (cluster_GetOrCreateSchema cluster schemaName) w).1
  ∧ Cause <$> failure (run (AllocTableID m clusterName schemaName tableName nodeName) w).1.1
    = Cause <$> failure
                  (handle (cluster_GetOrCreateTable cluster nodeName schemaName tableName) w).1
  ∧ (let reg := handle (cluster_RegisterNode cluster nodeName lease) w in
     let sc := handle (coordinator_scatterShard cluster) reg.2 in
     Cause <$> (run (RegisterNode m clusterName nodeName lease) w).1.1
     = Cause <$> (match reg.1 with Some e => Some e | None => sc.1 end)).
Proof.
  intros Hc. cbv zeta.
  unfold GetShards, GetTables, DropTable, AllocSchemaID, AllocTableID, RegisterNode,
    getCluster.
  rewrite Hc. simpl.
  split; [|split; [|split; [|split; [|split]]]].
  - by destruct (handle (cluster_GetShardIDs cluster nodeName) w) as [[e|x] w1].
  - by destruct (handle (cluster_GetTables cluster shardIDs nodeName) w) as [[e|x] w1].
  - by destruct (handle (cluster_DropTable cluster schemaName tableName tableID) w)
      as [[e|] w1].
  - by destruct (handle (cluster_GetOrCreateSchema cluster schemaName) w) as [[e|x] w1].
  - by destruct (handle (cluster_GetOrCreateTable cluster nodeName schemaName tableName) w)
      as [[e|x] w1].
  - destruct (handle (cluster_RegisterNode cluster nodeName lease) w) as [[e|] w1]; simpl;
      [done|].
    by destruct (handle (coordinator_scatterShard cluster) w1) as [[e|] w2].
Qed.

(** X12: the map [GetTables] builds does not depend on the order in which
    the loop ranges over the entries of the view: two enumerations of the
    same entries, each shard id once, give the same map, whatever the map
    the loop starts from. *)
Theorem GetTables_range_order (l1 l2 : list (Z * ShardTablesWithRole))
    (ret : gmap Z ShardTables) :
  NoDup l1.*1 →
  l1 ≡ₚ l2 →
  GetTables_loop l1 ret = GetTables_loop l2 ret.
Proof.
  intros Hnd Hp. apply map_eq. intros k.
  assert (Hnd2 : NoDup l2.*1) by (by rewrite <- Hp).
  rewrite !GetTables_loop_lookup by done.
  by rewrite (list_to_map_proper _ _ Hnd Hp).
Qed.

End Delegation.

Section Constructor.
Context {W : Type} `{!Backend W, !Startup W}.





End Constructor.

(** ** The further theorems at work on the scenario *)

Section RestartFacts.
Import Scenario Restart.

Lemma CreateCluster_alloc_failure_scenario :
  1 ≤ 3
  ∧ clusters m0 !! "db1" = None
  ∧ handle alloc_Alloc w_no_alloc = (inl Meta.ErrStorage, Meta.empty_world)
  ∧ (run (CreateCluster m0 "db1" 3 2 4) w_no_alloc).1.2 = Meta.empty_world
  ∧ calls (run (CreateCluster m0 "db1" 3 2 4) w_no_alloc).2 = [alloc_Alloc].
Proof.
  assert (Hn : 1 ≤ 3) by lia.
  assert (Hc : clusters m0 !! "db1" = None) by reflexivity.
  assert (Ha : handle alloc_Alloc w_no_alloc = (inl Meta.ErrStorage, Meta.empty_world))
    by (vm_compute; reflexivity).
  destruct (CreateCluster_alloc_failure m0 w_no_alloc Meta.empty_world "db1" 3 2 4
              Meta.ErrStorage Hn Hc Ha) as (_ & A & B).
  exact (conj Hn (conj Hc (conj Ha (conj A B)))).
Defined.

Lemma CreateCluster_storage_failure_scenario :
  1 ≤ 3
  ∧ clusters m0 !! "db1" = None
  ∧ handle alloc_Alloc w_no_store = (inr 1, (handle alloc_Alloc w_no_store).2)
  ∧ handle (storage_CreateCluster (mkClusterPb (uint32 1) "db1" 3 2 4))
           (handle alloc_Alloc w_no_store).2
    = (inl Meta.ErrStorage, (run (CreateCluster m0 "db1" 3 2 4) w_no_store).1.2)
  ∧ calls (run (CreateCluster m0 "db1" 3 2 4) w_no_store).2
    = [alloc_Alloc; storage_CreateCluster (mkClusterPb (uint32 1) "db1" 3 2 4)]
  ∧ records_named "db1" (run (CreateCluster m0 "db1" 3 2 4) w_no_store).1.2 = [].
Proof.
  assert (Hn : 1 ≤ 3) by lia.
  assert (Hc : clusters m0 !! "db1" = None) by reflexivity.
  assert (Ha : handle alloc_Alloc w_no_store = (inr 1, (handle alloc_Alloc w_no_store).2))
    by (vm_compute; reflexivity).
  assert (Hs : handle (storage_CreateCluster (mkClusterPb (uint32 1) "db1" 3 2 4))
                      (handle alloc_Alloc w_no_store).2
               = (inl Meta.ErrStorage, (run (CreateCluster m0 "db1" 3 2 4) w_no_store).1.2))
    by (vm_compute; reflexivity).
  destruct (CreateCluster_storage_failure m0 w_no_store _ _ "db1" 3 2 4 1
              Meta.ErrStorage Hn Hc Ha Hs) as (_ & _ & B).
  repeat (split; [assumption|]). vm_compute; reflexivity.
Defined.

Lemma CreateCluster_then_lookup_scenario :
  run (CreateCluster m0 "db1" 3 2 4) Meta.empty_world
    = (inr (ClusterRef 0), m1, w1, created.2)
  ∧ getCluster m1 "db1" = inr (ClusterRef 0)
  ∧ getCluster m1 "db2" = getCluster m0 "db2".
Proof.
  assert (H : run (CreateCluster m0 "db1" 3 2 4) Meta.empty_world
              = (inr (ClusterRef 0), m1, w1, created.2)) by (vm_compute; reflexivity).
  destruct (CreateCluster_then_lookup m0 m1 Meta.empty_world w1 "db1" 3 2 4
              (ClusterRef 0) created.2 H) as (A & B).
  split; [exact H|]. split; [exact A|]. apply B. discriminate.
Defined.

Lemma CreateCluster_registered_never_succeeds_scenario :
  clusters m1 !! "db1" = Some (ClusterRef 0)
  ∧ (run (CreateCluster m1 "db1" 0 2 4) w2).1.2 = w2
  ∧ (run (CreateCluster m1 "db1" 5 1 8) w2).1.2 = w2
  ∧ calls (run (CreateCluster m1 "db1" 5 1 8) w2).2 = [].
Proof.
  assert (Hc : clusters m1 !! "db1" = Some (ClusterRef 0)) by (vm_compute; reflexivity).
  destruct (CreateCluster_registered_never_succeeds m1 w2 "db1" 0 2 4 (ClusterRef 0) Hc)
    as (_ & A & _).
  destruct (CreateCluster_registered_never_succeeds m1 w2 "db1" 5 1 8 (ClusterRef 0) Hc)
    as (_ & B & C).
  exact (conj Hc (conj A (conj B C))).
Defined.

Lemma CreateCluster_persists_valid_record_scenario :
  storage_CreateCluster pb1 ∈ calls (run (CreateCluster m0 "db1" 3 2 4) Meta.empty_world).2
  ∧ 0 ≤ pb_Id pb1 < 2 ^ 32
  ∧ pb_Name pb1 = "db1"
  ∧ pb_MinNodeCount pb1 = 3.
Proof.
  assert (H : storage_CreateCluster pb1
              ∈ calls (run (CreateCluster m0 "db1" 3 2 4) Meta.empty_world).2).
  { apply list_elem_of_In. vm_compute. right. left. reflexivity. }
  destruct (CreateCluster_persists_valid_record m0 Meta.empty_world "db1" 3 2 4 pb1 H)
    as (A & B & C & _).
  exact (conj H (conj A (conj B C))).
Defined.

Lemma allocClusterID_wraps_scenario :
  handle alloc_Alloc Meta.empty_world = (inr 1, (handle alloc_Alloc Meta.empty_world).2)
  ∧ handle alloc_Alloc w_many = (inr (1 + 1 * 2 ^ 32), (handle alloc_Alloc w_many).2)
  ∧ (run allocClusterID w_many).1.1 = inr 1
  ∧ (run allocClusterID Meta.empty_world).1.1 = inr 1.
Proof.
  assert (H1 : handle alloc_Alloc Meta.empty_world
               = (inr 1, (handle alloc_Alloc Meta.empty_world).2))
    by (vm_compute; reflexivity).
  assert (H2 : handle alloc_Alloc w_many
               = (inr (1 + 1 * 2 ^ 32), (handle alloc_Alloc w_many).2))
    by (vm_compute; reflexivity).
  destruct (allocClusterID_wraps Meta.empty_world w_many _ _ 1 1 H1 H2) as (_ & B & C).
  assert (Hr : 0 ≤ 1 < 2 ^ 32) by lia.
  split; [exact H1|]. split; [exact H2|]. split; [|exact (C Hr)].
  rewrite B. exact (C Hr).
Defined.

Lemma delegation_targets_cluster_scenario :
  clusters m1 !! "db1" = Some (ClusterRef 0)
  ∧ Forall (λ c, target c = Some (ClusterRef 0))
           (calls (run (RegisterNode m1 "db1" "node-3" 30) w2).2)
  ∧ length (calls (run (GetShards m1 "db1" "node-1") w2).2) = 1%nat.
Proof.
  assert (Hc : clusters m1 !! "db1" = Some (ClusterRef 0)) by (vm_compute; reflexivity).
  destruct (delegation_targets_cluster m1 w2 "db1" "node-1" "public" "t1" [0; 3] 1 30
              (ClusterRef 0) Hc) as ((_ & A) & _).
  destruct (delegation_targets_cluster m1 w2 "db1" "node-3" "public" "t1" [0; 3] 1 30
              (ClusterRef 0) Hc) as (_ & _ & _ & _ & _ & (B & _)).
  exact (conj Hc (conj B A)).
Defined.

Lemma delegation_keeps_cause_scenario :
  clusters m1 !! "db1" = Some (ClusterRef 0)
  ∧ Cause <$> failure (run (GetShards m1 "db1" "node-9") w2).1.1
    = Some (Meta.ErrNotFound "node")
  ∧ Cause <$> (run (DropTable m1 "db1" "public" "t1" 1) w2).1.1 = None.
Proof.
  assert (Hc : clusters m1 !! "db1" = Some (ClusterRef 0)) by (vm_compute; reflexivity).
  destruct (delegation_keeps_cause m1 w2 "db1" "node-9" "public" "t1" [0; 3] 1 30
              (ClusterRef 0) Hc) as (A & _ & B & _).
  split; [exact Hc|]. split.
  - rewrite A. vm_compute; reflexivity.
  - rewrite B. vm_compute; reflexivity.
Defined.

Lemma GetTables_range_order_scenario :
  NoDup [(3, shard_a); (0, shard_b)].*1
  ∧ [(3, shard_a); (0, shard_b)] ≡ₚ [(0, shard_b); (3, shard_a)]
  ∧ GetTables_loop [(3, shard_a); (0, shard_b)] ∅
    = GetTables_loop [(0, shard_b); (3, shard_a)] ∅.
Proof.
  assert (Hnd : NoDup [(3, shard_a); (0, shard_b)].*1).
  { simpl. apply NoDup_cons. split.
    - intros Hx. apply list_elem_of_singleton in Hx. discriminate.
    - apply NoDup_singleton. }
  assert (Hp : [(3, shard_a); (0, shard_b)] ≡ₚ [(0, shard_b); (3, shard_a)])
    by apply perm_swap.
  exact (conj Hnd (conj Hp (GetTables_range_order _ _ ∅ Hnd Hp))).
Defined.


End RestartFacts.
